(** * EMQST_lib.emqst: the benchmarking orchestrator

  A shallow embedding of [src/EMQST_lib/emqst.py].  The module has one
  function, [emqst], which wires together collaborators that live in
  other modules of the library (POVM generation and noise, device
  tomography, the QST track, curve fitting, plotting).  The embedding
  follows the function line by line in a state-and-exception monad over
  an explicit Python world: the directory tree and the files written,
  the heap of operator-set objects, and a trace of what was printed and
  which collaborators were called. *)

From Stdlib Require Import ZArith QArith.
From stdpp Require Import base gmap strings list fin_maps.

Local Open Scope Z_scope.

(** ** Python exceptions and outcomes *)

Module Py.

(** An exception is identified by the name of its class; the detail is
    the name or message it carries. *)
Record exn := Exn { exn_class : string; exn_detail : string }.

Inductive outcome (A : Type) :=
| Ok (a : A)
| Raise (e : exn).
Arguments Ok {A} a.
Arguments Raise {A} e.

Definition is_ok {A} (o : outcome A) : bool :=
  match o with Ok _ => true | Raise _ => false end.

Definition FileExistsError (path : string) : exn := Exn "FileExistsError" path.
Definition UnboundLocalError (var : string) : exn := Exn "UnboundLocalError" var.
Definition IndexError (what : string) : exn := Exn "IndexError" what.

(** Truthiness of a Python int, as in [if noise_mode:]. *)
Definition truthy (z : Z) : bool := negb (z =? 0).

End Py.

(** ** The numpy operations of the aggregation step

  Floating-point numbers are idealised: a finite value is a rational,
  and the three non-finite values numpy produces when a float array is
  divided by zero are kept apart from the finite ones. *)

Module Np.

Inductive npfloat :=
| Finite (q : Q)
| PosInf
| NegInf
| NaN.


(** [np.arange(n)] *)
Definition arange (n : nat) : list Z := map Z.of_nat (seq 0 n).

(** [a + b] on two rows of one shape. *)
Definition add (a b : list Q) : list Q := zip_with Qplus a b.

(** [np.sum(a, axis=0)] on a two-dimensional array given by its rows:
    the rows are added up from the first one on. *)
Definition sum_axis0 (a : list (list Q)) : list Q :=
  match a with
  | [] => []
  | r :: rs => fold_left add rs r
  end.

(** One entry of [x / n] for a float [x] and a Python int [n]: numpy
    does not raise on [n = 0], it yields [nan], [inf] or [-inf]. *)
Definition divide1 (n : Z) (x : Q) : npfloat :=
  if (n =? 0)%Z then
    match (x ?= 0)%Q with
    | Eq => NaN
    | Gt => PosInf
    | Lt => NegInf
    end
  else Finite (x / inject_Z n)%Q.

(** [x / n] *)
Definition true_divide (x : list Q) (n : Z) : list npfloat :=
  map (divide1 n) x.

(** [a[k:]] for a non-negative constant [k]. *)
Definition slice_from {A} (k : nat) (a : list A) : list A := drop k a.

(** [np.sum(a, axis=0) / n], lines 143 and 144 of [emqst]. *)
Definition ensemble_average (a : list (list Q)) (n : Z) : list npfloat :=
  true_divide (sum_axis0 a) n.

(** The column sums written as a right fold from the zero row; used to
    reason about [sum_axis0], not by the program. *)
Definition colsum (c : nat) (a : list (list Q)) : list Q :=
  foldr add (replicate c 0%Q) a.

End Np.

(** ** The collaborators

  [emqst] consumes the rest of the library through the calls below.
  Their algorithms are not part of this module; they are taken as
  given.  [Env] stands for what they read besides their arguments: the
  clock, the uuid source and the random generator. *)

Inductive estimator := MLE | BME.

Class Collaborators := {
POVM : Type;
Matrix : Type;
QState : Type;
Rho : Type;
Angles : Type;
Outcomes : Type;
ExpDict : Type;
Env : Type;
(** [datetime.now().strftime(...) + str(uuid.uuid4())] *)
now_uuid : Env → string * Env;
(** [time.time()] *)
time_time : Env → Q * Env;
(** [sf.get_cailibration_states(n_qubits)] *)
get_cailibration_states : Z → list QState * Angles;
(** [POVM.generate_Pauli_POVM(n_qubits)] *)
generate_Pauli_POVM : Z → list POVM;
(** [POVM.generate_noisy_POVM(povm, noise_mode)] *)
generate_noisy_POVM : POVM → Z → POVM;
(** [POVM.depolarized_POVM(povm)] *)
depolarized_POVM : POVM → POVM;
(** [povm.get_POVM()] *)
get_POVM : POVM → Matrix;
(** [sf.POVM_distance(a, b)] *)
POVM_distance : Matrix → Matrix → Q;
(** [dt.device_tomography(n_qubits, n_calibration_shots_each,
    noisy_POVM_list, calibration_states, n_cores, bool_exp_meaurements,
    exp_dictionary, initial_guess_POVM, calibration_angles)] *)
device_tomography :
  Env → Z → Z → list POVM → list QState → Z → bool → ExpDict →
  list POVM → Angles → list POVM * Env;
(** The sampling behind [QST.generate_data]: operator set, true states,
    shots per operator set, qubits, experimental flag and source. *)
sample_outcomes :
  Env → list POVM → list QState → Z → Z → bool → ExpDict → Outcomes * Env;
(** The estimators behind [QST.perform_MLE] and [QST.perform_BME]:
    operator set, outcome data, true states, shots per operator set,
    qubits, cores.  They yield the infidelity trajectories (ensemble x
    shots) and the final estimates. *)
estimate :
  estimator → Env → list POVM → option Outcomes → list QState → Z → Z → Z →
  (list (list Q) * list Rho) * Env;
(** [scipy.optimize.curve_fit(sf.power_law, xdata, ydata, p0)]; it can
    raise. *)
curve_fit : list Z → list Np.npfloat → Q * Q → Py.outcome (Q * Q);
(** [sf.power_law(x, a, b)] *)
power_law : list Z → Q → Q → list Np.npfloat
}.

(** ** The Python world *)

(** Operator sets are objects on the heap; a variable holds a reference. *)
Abbreviation loc := nat (only parsing).

Section World.
Context `{C : Collaborators}.
Import Py Np.

(** Operator sets are objects on the heap; a variable holds a
    reference. *)
Abbreviation loc := nat (only parsing).

(** One printed line: the f-string with its values left unrendered. *)
Inductive line :=
| Text (s : string)
| FmtZ (pre : string) (z : Z) (post : string)
| FmtS (pre : string) (s : string) (post : string)
| FmtQ (pre : string) (q : Q) (post : string).

(** Values of the [DT_settings] dictionary. *)
Inductive pyval :=
| V_int (z : Z)
| V_bool (b : bool)
| V_states (s : list QState)
| V_ref (l : loc).

(** The track object.
    Modelled from the spec: class [QST] of [EMQST_lib.qst] is not in
    this module.  The object keeps what it was constructed with, the
    outcome data once generated, and the results of the most recently
    completed run. *)
Record QST := {
  qst_POVM_list : loc;
  qst_true_state_list : list QState;
  qst_n_shots_each : Z;
  qst_n_qubits : Z;
  qst_bool_exp_measurements : bool;
  qst_exp_dictionary : ExpDict;
  qst_n_cores : Z;
  qst_noise_corrected_POVM_list : loc;
  qst_true_state_angles_list : option Angles;
  qst_outcomes : option Outcomes;
  qst_infidelity : option (list (list Q));
  qst_rho_estm : option (list Rho)
}.

Record curve := {
  curve_x : list Z;
  curve_y : list npfloat;
  curve_fmt : string;
  curve_label : line
}.

(** What a file holds: the objects saved to it, in order. *)
Inductive payload :=
| P_exp_dictionary (d : ExpDict)
| P_dict (d : gmap string pyval) (objects : gmap loc (list POVM))
| P_QST_settings (q : QST) (noise_mode : Z)
| P_array (a : list (list Q))
| P_rho (r : list Rho)
| P_figure (curves : list curve) (xlim : Z * nat).

(** What a run emits, in program order: the lines it prints and the calls
    the properties below speak about.  A call to the track object is
    recorded with the override it was given, the operator set it used,
    the outcome data it produced or consumed, and what it computed. *)
Inductive event :=
| Stdout (l : line)
| Call_generate_noisy_POVM (povm : POVM) (mode : Z)
| Call_depolarized_POVM (povm : POVM)
| Call_device_tomography (noisy initial_guess : loc)
| Call_generate_data (override : option loc) (povms : loc) (data : Outcomes)
| Call_perform (m : estimator) (override : option loc) (povms : loc)
    (data : option Outcomes) (infidelity : list (list Q)) (rho_estm : list Rho)
| Call_curve_fit (xdata : list Z) (ydata : list npfloat)
| Call_savefig (path : string).

Record world := World {
  env : Env;
  dirs : gset string;
  files : gmap string (list payload);
  heap : gmap loc (list POVM)
}.

Record run (A : Type) := Run {
  result : outcome A;
  final : world;
  emitted : list event
}.
Arguments Run {A} result final emitted.
Arguments result {A} r.
Arguments final {A} r.
Arguments emitted {A} r.

(** State, exceptions and an output trace. *)
Definition M (A : Type) : Type := world → run A.

Definition ret {A} (a : A) : M A := λ w, Run (Ok a) w [].

Definition bind {A B} (m : M A) (k : A → M B) : M B := λ w,
  let r := m w in
  match result r with
  | Ok a => let r' := k a (final r) in
            Run (result r') (final r') (emitted r ++ emitted r')
  | Raise e => Run (Raise e) (final r) (emitted r)
  end.

Definition raise {A} (e : exn) : M A := λ w, Run (Raise e) w [].

Definition emit (e : event) : M unit := λ w, Run (Ok tt) w [e].

Definition with_env (w : world) (e : Env) : world :=
  World e (dirs w) (files w) (heap w).
Definition with_dirs (w : world) (d : gset string) : world :=
  World (env w) d (files w) (heap w).
Definition with_files (w : world) (f : gmap string (list payload)) : world :=
  World (env w) (dirs w) f (heap w).
Definition with_heap (w : world) (h : gmap loc (list POVM)) : world :=
  World (env w) (dirs w) (files w) h.

(** A collaborator that reads the environment. *)
Definition in_env {A} (f : Env → A * Env) : M A := λ w,
  let r := f (env w) in Run (Ok (fst r)) (with_env w (snd r)) [].

End World.

Arguments Run {C A} result final emitted.
Arguments result {C A} r.
Arguments final {C A} r.
Arguments emitted {C A} r.

Declare Scope py_scope.
Delimit Scope py_scope with py.
Notation "x <- m ;; k" := (bind m (fun x => k))
  (at level 100, m at next level, right associativity) : py_scope.
Notation "m ;; k" := (bind m (fun _ => k))
  (at level 100, right associativity) : py_scope.

(** ** Primitives of the world *)

Section Primitives.
Context `{C : Collaborators}.
Import Py Np.
Local Open Scope py_scope.

(** [print(...)] *)
Definition py_print (l : line) : M unit := emit (Stdout l).

(** [os.path.exists(path)] for a directory *)
Definition os_path_exists (path : string) : M bool := λ w,
  Run (Ok (bool_decide (path ∈ dirs w))) w [].

(** [os.makedirs(path)] with a path of one component *)
Definition os_makedirs (path : string) : M unit := λ w,
  if decide (path ∈ dirs w)
  then Run (Raise (FileExistsError path)) w []
  else Run (Ok tt) (with_dirs w ({[path]} ∪ dirs w)) [].

(** [os.mkdir(path)]: the directory must not exist yet. *)
Definition os_mkdir (path : string) : M unit := λ w,
  if decide (path ∈ dirs w)
  then Run (Raise (FileExistsError path)) w []
  else Run (Ok tt) (with_dirs w ({[path]} ∪ dirs w)) [].

(** [open(path, 'wb')]: the file is created or emptied. *)
Definition open_wb (path : string) : M unit := λ w,
  Run (Ok tt) (with_files w (<[path := []]> (files w))) [].

(** [np.save(f, obj)] on a file opened at [path]: the object is appended. *)
Definition np_save (path : string) (obj : payload) : M unit := λ w,
  Run (Ok tt)
      (with_files w (<[path := default [] (files w !! path) ++ [obj]]> (files w)))
      [].

(** A new object on the heap, as made by [np.array(...)] or returned by a
    collaborator. *)
Definition alloc (v : list POVM) : M loc := λ w,
  let l := fresh (dom (heap w)) in
  Run (Ok l) (with_heap w (<[l := v]> (heap w))) [].

(** Reading through a reference.  References come from [alloc] only, so
    the lookup finds the object. *)
Definition deref (l : loc) : M (list POVM) := λ w,
  Run (Ok (default [] (heap w !! l))) w [].

(** The heap as it is, for pickling a dictionary that holds references. *)
Definition snapshot : M (gmap loc (list POVM)) := λ w,
  Run (Ok (heap w)) w [].

(** Reading a local variable that may not have been assigned. *)
Definition read_local {A} (name : string) (v : option A) : M A :=
  match v with
  | Some a => ret a
  | None => raise (UnboundLocalError name)
  end.

(** [a[i]] *)
Definition index {A} (what : string) (a : list A) (i : nat) : M A :=
  match a !! i with
  | Some x => ret x
  | None => raise (IndexError what)
  end.

(** [for x in xs: body(x)] *)
Fixpoint for_in {A} (xs : list A) (body : A → M unit) : M unit :=
  match xs with
  | [] => ret tt
  | x :: xs' => body x;; for_in xs' body
  end.

(** [[f(x) for x in xs]], each call recorded. *)
Fixpoint comprehension {A B} (f : A → B) (ev : A → event) (xs : list A)
  : M (list B) :=
  match xs with
  | [] => ret []
  | x :: xs' =>
      emit (ev x);;
      ys <- comprehension f ev xs';;
      ret (f x :: ys)
  end.

(** *** The track object

    Modelled from the spec: the methods of class [QST] that [emqst]
    calls.  An operator-set argument left out means the set the object
    was constructed with; [generate_data] stores the outcome data;
    [perform_MLE] and [perform_BME] estimate from the stored data and
    replace the results of the previous run; the accessors return the
    results of the most recently completed run and fail with
    [StateNotReadyError] before any. *)

Definition QST_new (POVM_list : loc) (true_state_list : list QState)
  (n_shots_each n_qubits : Z) (bool_exp_measurements : bool)
  (exp_dictionary : ExpDict) (n_cores : Z) (noise_corrected_POVM_list : loc)
  (true_state_angles_list : option Angles) : QST :=
  {| qst_POVM_list := POVM_list;
     qst_true_state_list := true_state_list;
     qst_n_shots_each := n_shots_each;
     qst_n_qubits := n_qubits;
     qst_bool_exp_measurements := bool_exp_measurements;
     qst_exp_dictionary := exp_dictionary;
     qst_n_cores := n_cores;
     qst_noise_corrected_POVM_list := noise_corrected_POVM_list;
     qst_true_state_angles_list := true_state_angles_list;
     qst_outcomes := None;
     qst_infidelity := None;
     qst_rho_estm := None |}.

Definition QST_with_outcomes (q : QST) (d : Outcomes) : QST :=
  {| qst_POVM_list := qst_POVM_list q;
     qst_true_state_list := qst_true_state_list q;
     qst_n_shots_each := qst_n_shots_each q;
     qst_n_qubits := qst_n_qubits q;
     qst_bool_exp_measurements := qst_bool_exp_measurements q;
     qst_exp_dictionary := qst_exp_dictionary q;
     qst_n_cores := qst_n_cores q;
     qst_noise_corrected_POVM_list := qst_noise_corrected_POVM_list q;
     qst_true_state_angles_list := qst_true_state_angles_list q;
     qst_outcomes := Some d;
     qst_infidelity := qst_infidelity q;
     qst_rho_estm := qst_rho_estm q |}.

Definition QST_with_results (q : QST) (inf : list (list Q)) (rho : list Rho)
  : QST :=
  {| qst_POVM_list := qst_POVM_list q;
     qst_true_state_list := qst_true_state_list q;
     qst_n_shots_each := qst_n_shots_each q;
     qst_n_qubits := qst_n_qubits q;
     qst_bool_exp_measurements := qst_bool_exp_measurements q;
     qst_exp_dictionary := qst_exp_dictionary q;
     qst_n_cores := qst_n_cores q;
     qst_noise_corrected_POVM_list := qst_noise_corrected_POVM_list q;
     qst_true_state_angles_list := qst_true_state_angles_list q;
     qst_outcomes := qst_outcomes q;
     qst_infidelity := Some inf;
     qst_rho_estm := Some rho |}.

(** [qst.generate_data(override_POVM_list=...)] *)
Definition QST_generate_data (q : QST) (override_POVM_list : option loc)
  : M QST :=
  let l := default (qst_POVM_list q) override_POVM_list in
  povms <- deref l;;
  d <- in_env (λ e, sample_outcomes e povms (qst_true_state_list q)
                      (qst_n_shots_each q) (qst_n_qubits q)
                      (qst_bool_exp_measurements q) (qst_exp_dictionary q));;
  emit (Call_generate_data override_POVM_list l d);;
  ret (QST_with_outcomes q d).

(** [qst.perform_MLE(override_POVM_list=...)] and [qst.perform_BME(...)] *)
Definition QST_perform (m : estimator) (q : QST)
  (override_POVM_list : option loc) : M QST :=
  let l := default (qst_POVM_list q) override_POVM_list in
  povms <- deref l;;
  r <- in_env (λ e, estimate m e povms (qst_outcomes q)
                      (qst_true_state_list q) (qst_n_shots_each q)
                      (qst_n_qubits q) (qst_n_cores q));;
  emit (Call_perform m override_POVM_list l (qst_outcomes q) (fst r) (snd r));;
  ret (QST_with_results q (fst r) (snd r)).

Definition StateNotReadyError : exn := Exn "StateNotReadyError" "".

(** [qst.get_infidelity()] *)
Definition QST_get_infidelity (q : QST) : M (list (list Q)) :=
  match qst_infidelity q with
  | Some a => ret a
  | None => raise StateNotReadyError
  end.

(** [qst.get_rho_estm()] *)
Definition QST_get_rho_estm (q : QST) : M (list Rho) :=
  match qst_rho_estm q with
  | Some r => ret r
  | None => raise StateNotReadyError
  end.

(** [qst.save_QST_settings(data_path, noise_mode)] *)
Definition QST_save_QST_settings (q : QST) (data_path : string) (noise_mode : Z)
  : M unit :=
  let path := data_path +:+ "/QST_settings.npy" in
  open_wb path;;
  np_save path (P_QST_settings q noise_mode).

End Primitives.

(** ** The orchestrator *)

Section Emqst.
Context `{C : Collaborators}.
Import Py Np.
Local Open Scope py_scope.

(** [method == s] *)
Definition method_is (method s : string) : bool := String.eqb method s.

(** [curve_fit(sf.power_law, xdata, ydata, p0=...)], recorded. *)
Definition call_curve_fit (xdata : list Z) (ydata : list npfloat) (p0 : Q * Q)
  : M (Q * Q) :=
  emit (Call_curve_fit xdata ydata);;
  match curve_fit xdata ydata p0 with
  | Ok popt => ret popt
  | Raise e => raise e
  end.

(** [plt.savefig(path)] of the current figure. *)
Definition plt_savefig (path : string) (curves : list curve) (xlim : Z * nat)
  : M unit :=
  emit (Call_savefig path);;
  open_wb path;;
  np_save path (P_figure curves xlim).

(** Lines 107 and 108: the distance between each reconstructed operator
    set and the noisy one at the same index. *)
Definition print_distances (reconstructed noisy : list POVM) : M unit :=
  for_in (seq 0 (length reconstructed)) (λ i,
    r <- index "reconstructed_POVM_list" reconstructed i;;
    n <- index "noisy_POVM_list" noisy i;;
    py_print (FmtQ "Distance between reconstructed and noisy POVM: "
                (POVM_distance (get_POVM r) (get_POVM n)) "")).

Definition rule : line := Text "----------------------------".

Definition emqst (n_qubits n_QST_shots_each n_calibration_shots_each : Z)
  (true_state_list : list QState)
  (calibration_states : option (list QState))
  (bool_exp_measurements : bool) (exp_dictionary : ExpDict)
  (n_cores noise_mode : Z) (true_state_angles_list : option Angles)
  (method : string)
  : M (list (list Q) * list (list Q) * list Rho) :=
  (* 36-40 *)
  let check_path := "results" in
  path_exists <- os_path_exists check_path;;
  (if negb path_exists
   then py_print (Text "Created results dictionary.");; os_makedirs "results"
   else ret tt);;
  (* 45-51 *)
  dir_name <- in_env now_uuid;;
  let data_path := "results/" +:+ dir_name in
  os_mkdir data_path;;
  (* 53-54 *)
  open_wb (data_path +:+ "/experimental_settings.npy");;
  np_save (data_path +:+ "/experimental_settings.npy")
          (P_exp_dictionary exp_dictionary);;
  (* 56-57: [calibration_angles] is assigned in this branch only *)
  let calibration :=
    match calibration_states with
    | None =>
        let r := get_cailibration_states n_qubits in (fst r, Some (snd r))
    | Some s => (s, None)
    end in
  let calibration_states := fst calibration in
  let calibration_angles := snd calibration in
  (* 59 *)
  POVM_list <- alloc (generate_Pauli_POVM n_qubits);;
  (* 61-67 *)
  py_print rule;;
  py_print (FmtS "Error corrected " method ".");;
  py_print (FmtZ "" n_qubits " qubit(s).");;
  py_print (FmtZ "" (n_calibration_shots_each
                     * Z.of_nat (length calibration_states))
                 " POVM calibration shots.");;
  nominal <- deref POVM_list;;
  py_print (FmtZ "" (n_QST_shots_each * Z.of_nat (length nominal))
                 " QST shots.");;
  py_print (FmtZ "" (Z.of_nat (length true_state_list)) " QST averages.");;
  py_print rule;;
  (* 70-73 *)
  noise_mode <-
    (if bool_exp_measurements
     then py_print (Text "Noise mode is disabled as experimental measurements are performed.");;
          ret 0%Z
     else ret noise_mode);;
  (* 75-84 *)
  noisy_POVM_list <-
    (if truthy noise_mode then
       py_print (FmtZ "Synthetic noise mode " noise_mode ".");;
       if (n_qubits =? 1)%Z then
         povms <- deref POVM_list;;
         l <- comprehension (λ povm, generate_noisy_POVM povm noise_mode)
                            (λ povm, Call_generate_noisy_POVM povm noise_mode)
                            povms;;
         a <- alloc l;;
         py_print (FmtZ "Synthetic single qubit noise mode " noise_mode ".");;
         ret a
       else
         povms <- deref POVM_list;;
         l <- comprehension depolarized_POVM Call_depolarized_POVM povms;;
         alloc l
     else
       py_print (Text "No synthetic noise.");;
       ret POVM_list);;
  (* 85-90 *)
  dt_start <- in_env time_time;;
  calibration_angles <- read_local "calibration_angles" calibration_angles;;
  noisy <- deref noisy_POVM_list;;
  initial_guess <- deref POVM_list;;
  emit (Call_device_tomography noisy_POVM_list POVM_list);;
  rec <- in_env (λ e, device_tomography e n_qubits n_calibration_shots_each
                        noisy calibration_states n_cores bool_exp_measurements
                        exp_dictionary initial_guess calibration_angles);;
  reconstructed_POVM_list <- alloc rec;;
  dt_end <- in_env time_time;;
  py_print (FmtQ "Runtime of DT reconstruction " (dt_end - dt_start)%Q "");;
  (* 91-103 *)
  let DT_settings : gmap string pyval := list_to_map [
    ("n_qubits", V_int n_qubits);
    ("calibration_states", V_states calibration_states);
    ("n_calibration_shots", V_int n_calibration_shots_each);
    ("initial_POVM", V_ref POVM_list);
    ("reconstructed_POVM_list", V_ref reconstructed_POVM_list);
    ("bool_exp_meaurements", V_bool bool_exp_measurements);
    ("noise_mode", V_int noise_mode);
    ("noisy_POVM_list", V_ref noisy_POVM_list)] in
  open_wb (data_path +:+ "/DT_settings.npy");;
  objects <- snapshot;;
  np_save (data_path +:+ "/DT_settings.npy") (P_dict DT_settings objects);;
  (* 107-110 *)
  rec <- deref reconstructed_POVM_list;;
  noisy <- deref noisy_POVM_list;;
  print_distances rec noisy;;
  py_print (Text "POVM calibration complete.");;
  py_print rule;;
  (* 112-117 *)
  let qst := QST_new POVM_list true_state_list n_QST_shots_each n_qubits
               bool_exp_measurements exp_dictionary n_cores
               reconstructed_POVM_list true_state_angles_list in
  qst <- QST_generate_data qst (Some noisy_POVM_list);;
  QST_save_QST_settings qst data_path noise_mode;;
  py_print (Text "Generated data.");;
  (* 119-127 *)
  py_print (Text "Start corrected QST.");;
  qst <-
    (if method_is method "MLE"
     then QST_perform MLE qst (Some reconstructed_POVM_list)
     else if method_is method "BME"
     then QST_perform BME qst (Some reconstructed_POVM_list)
     else ret qst);;
  corrected_infidelity <- QST_get_infidelity qst;;
  corrected_rho_estm <- QST_get_rho_estm qst;;
  py_print (Text "Corrected QST complete.");;
  py_print rule;;
  (* 131-139 *)
  py_print (Text "Start uncorrected QST.");;
  qst <-
    (if method_is method "MLE"
     then QST_perform MLE qst None
     else if method_is method "BME"
     then QST_perform BME qst None
     else ret qst);;
  uncorrected_infidelity <- QST_get_infidelity qst;;
  uncorrected_rho_estm <- QST_get_rho_estm qst;;
  py_print (Text "Uncorrected QST complete.");;
  py_print rule;;
  (* 141-144 *)
  let n_averages := Z.of_nat (length true_state_list) in
  row0 <- index "uncorrected_infidelity" uncorrected_infidelity 0;;
  let sample_step := arange (length row0) in
  let corrected_average := ensemble_average corrected_infidelity n_averages in
  let uncorrected_average :=
    ensemble_average uncorrected_infidelity n_averages in
  (* 146-150 *)
  open_wb (data_path +:+ "/QST_results.npy");;
  np_save (data_path +:+ "/QST_results.npy") (P_array corrected_infidelity);;
  np_save (data_path +:+ "/QST_results.npy") (P_array uncorrected_infidelity);;
  np_save (data_path +:+ "/QST_results.npy") (P_rho corrected_rho_estm);;
  np_save (data_path +:+ "/QST_results.npy") (P_rho uncorrected_rho_estm);;
  (* 154-176 *)
  (if (n_cores <? 10)%Z && method_is method "BME" then
     let cutoff := 10%nat in
     popt_corr <- call_curve_fit (slice_from 1000 sample_step)
                    (slice_from 1000 corrected_average) (1, -(1#2))%Q;;
     let corr_fit := power_law (slice_from cutoff sample_step)
                       (fst popt_corr) (snd popt_corr) in
     popt_uncorr <- call_curve_fit (slice_from 1000 sample_step)
                      (slice_from 1000 uncorrected_average) (1, -(1#2))%Q;;
     let uncorr_fit := power_law (slice_from cutoff sample_step)
                         (fst popt_uncorr) (snd popt_uncorr) in
     let x := slice_from cutoff sample_step in
     let curves :=
       [ {| curve_x := x; curve_y := slice_from cutoff corrected_average;
            curve_fmt := "r"; curve_label := Text "Corrected" |};
         {| curve_x := x; curve_y := slice_from cutoff uncorrected_average;
            curve_fmt := "b"; curve_label := Text "Uncorrected" |};
         {| curve_x := x; curve_y := corr_fit; curve_fmt := "r--";
            curve_label := FmtQ "Fit, $N^a, a=" (snd popt_corr) "$" |};
         {| curve_x := x; curve_y := uncorr_fit; curve_fmt := "b--";
            curve_label := FmtQ "Fit, $N^a, a=" (snd popt_uncorr) "$" |} ] in
     let xlim := (100%Z, length sample_step) in
     plt_savefig (data_path +:+ "/Averaged_infidelities.png") curves xlim;;
     plt_savefig "latest_run.png" curves xlim
   else ret tt);;
  (* 178 *)
  ret (corrected_infidelity, uncorrected_infidelity, corrected_rho_estm).

End Emqst.

(** ** A small laboratory

    Concrete collaborators on which runs can be evaluated: an operator
    set is a number, noise shifts it, tomography returns what it was
    given, every trajectory has one entry per shot, and the curve fit
    refuses empty data as scipy does. *)

Module Lab.
Import Py Np.

Definition lab_curve_fit (xdata : list Z) (ydata : list npfloat) (p0 : Q * Q)
  : outcome (Q * Q) :=
  match ydata with
  | [] => Raise (Exn "ValueError" "`ydata` must not be empty!")
  | _ :: _ => Ok p0
  end.

Definition lab_estimate (m : estimator) (e : nat) (povms : list Z)
  (data : option (list Z)) (states : list Z) (shots n_qubits n_cores : Z)
  : (list (list Q) * list Z) * nat :=
  let len := (Z.to_nat shots * length povms)%nat in
  let err := match povms with [] => 0%Z | p :: _ => p end in
  ((map (λ _, replicate len (inject_Z err)) states, map (Z.add err) states),
   S e).

#[export] Instance lab : Collaborators := {|
  POVM := Z;
  Matrix := Z;
  QState := Z;
  Rho := Z;
  Angles := Z;
  Outcomes := list Z;
  ExpDict := unit;
  Env := nat;
  now_uuid e := (String (Ascii.ascii_of_nat (65 + e)) "", S e);
  time_time e := (inject_Z (Z.of_nat e), S e);
  get_cailibration_states n := ([0; 1; 2; 3], 7)%Z;
  generate_Pauli_POVM n := map Z.of_nat (seq 1 (3 ^ Z.to_nat n));
  generate_noisy_POVM povm mode := (povm + 100 * mode)%Z;
  depolarized_POVM povm := (povm + 1000)%Z;
  get_POVM povm := povm;
  POVM_distance a b := inject_Z (Z.abs (a - b));
  device_tomography e _ _ noisy _ _ _ _ _ _ := (noisy, S e);
  sample_outcomes e povms states _ _ _ _ := (Z.of_nat e :: povms, S e);
  estimate := lab_estimate;
  curve_fit := lab_curve_fit;
  power_law x a b := map (λ _, Finite a) x
|}.

(** An empty machine: no directories, no files, no objects. *)
Definition w0 : world := World (C := lab) 0%nat ∅ ∅ ∅.

End Lab.

(** ** Vocabulary of the properties *)

Section Vocabulary.
Context `{C : Collaborators}.
Import Py Np.

(** The directory of the run started in world [w]: lines 45 to 50. *)
Definition data_path (w : world) : string :=
  "results/" +:+ fst (now_uuid (env w)).

(** The noise mode after lines 71 to 73. *)
Definition effective_noise_mode (bool_exp_measurements : bool) (noise_mode : Z)
  : Z :=
  if bool_exp_measurements then 0 else noise_mode.

(** The transform lines 77 to 81 apply to each nominal operator set. *)
Definition noise_transform (n_qubits noise_mode : Z) (povm : POVM) : POVM :=
  if (n_qubits =? 1)%Z then generate_noisy_POVM povm noise_mode
  else depolarized_POVM povm.

Definition is_stdout (e : event) : bool :=
  match e with Stdout _ => true | _ => false end.

(** The call lines 78 and 81 make for one nominal operator set. *)
Definition noise_call (n_qubits noise_mode : Z) (povm : POVM) : event :=
  if (n_qubits =? 1)%Z then Call_generate_noisy_POVM povm noise_mode
  else Call_depolarized_POVM povm.

Definition is_noise_call (e : event) : bool :=
  match e with
  | Call_generate_noisy_POVM _ _ | Call_depolarized_POVM _ => true
  | _ => false
  end.

Definition is_calibration_call (e : event) : bool :=
  match e with Call_device_tomography _ _ => true | _ => false end.

Definition is_track_call (e : event) : bool :=
  match e with
  | Call_generate_data _ _ _ | Call_perform _ _ _ _ _ _ => true
  | _ => false
  end.

Definition is_perform_call (e : event) : bool :=
  match e with Call_perform _ _ _ _ _ _ => true | _ => false end.

Definition is_curve_fit_call (e : event) : bool :=
  match e with Call_curve_fit _ _ => true | _ => false end.

(** The stages of a run: noise model apart, the calls that do the work. *)
Definition is_stage_call (e : event) : bool :=
  is_calibration_call e || is_track_call e.

(** The line printed for one pair at lines 107 and 108. *)
Definition distance_line (r n : POVM) : event :=
  Stdout (FmtQ "Distance between reconstructed and noisy POVM: "
            (POVM_distance (get_POVM r) (get_POVM n)) "").

(** The value saved under [key] in the dictionary that is the one
    object of the file at [path]. *)
Definition saved_setting (w : world) (path key : string) : option pyval :=
  match files w !! path with
  | Some [P_dict settings _] => settings !! key
  | _ => None
  end.


(** What the collaborators promise.  Device tomography returns as many
    operator sets as it was given. *)
Definition tomography_keeps_cardinality : Prop :=
  ∀ e n_qubits shots noisy states n_cores b d guess angles,
    length (fst (device_tomography e n_qubits shots noisy states n_cores b d
                   guess angles)) = length noisy.

(** An estimator yields one trajectory for each true state. *)
Definition one_trajectory_per_state : Prop :=
  ∀ m e povms data states shots n_qubits n_cores,
    length (fst (fst (estimate m e povms data states shots n_qubits n_cores)))
    = length states.

(** A trajectory has one entry for each shot: shots per operator set
    times the number of operator sets. *)
Definition one_entry_per_shot : Prop :=
  ∀ m e povms data states shots n_qubits n_cores,
    Forall (λ row, length row = (Z.to_nat shots * length povms)%nat)
      (fst (fst (estimate m e povms data states shots n_qubits n_cores))).


(** [wp m w pre Q]: running [m] in world [w] after the events [pre] ends
    in an outcome, a world and a trace that satisfy [Q]. *)
Definition wp {A} (m : M A) (w : world) (pre : list event)
  (Q : outcome A → world → list event → Prop) : Prop :=
  Q (result (m w)) (final (m w)) (pre ++ emitted (m w)).

(** Lines 38 to 40: afterwards the results directory exists, nothing
    else changed in the directory tree, and at most a line was printed. *)
Definition results_post (w : world) (evs : list event) (d : gset string)
  : Prop :=
  Forall (λ e, is_stdout e = true) evs ∧
  "results" ∈ d ∧
  ∀ p, p ≠ "results" → p ∈ d ↔ p ∈ dirs w.

(** Lines 71 to 84: the noise mode in force, the reference the noisy
    list is bound to, the heap, and what was printed and called. *)
Definition noise_warning : event :=
  Stdout (Text "Noise mode is disabled as experimental measurements are performed.").

Record noise_post (bexp : bool) (nm n_qubits : Z) (nominal : list POVM)
  (l_nom : loc) (h0 : gmap loc (list POVM))
  (l_noisy : loc) (h : gmap loc (list POVM)) (evs : list event) : Prop := {
  noise_events : Forall (λ e, (is_stdout e || is_noise_call e) = true) evs;
  noise_warned : bexp = true → noise_warning ∈ evs;
  noise_silent :
    truthy (effective_noise_mode bexp nm) = false →
    Stdout (Text "No synthetic noise.") ∈ evs;
  noise_calls :
    List.filter is_noise_call evs
    = (if truthy (effective_noise_mode bexp nm)
       then map (noise_call n_qubits (effective_noise_mode bexp nm)) nominal
       else []);
  noise_nominal : h !! l_nom = Some nominal;
  noise_noisy :
    h !! l_noisy
    = Some (if truthy (effective_noise_mode bexp nm)
            then map (noise_transform n_qubits (effective_noise_mode bexp nm))
                   nominal
            else nominal);
  noise_alias :
    if truthy (effective_noise_mode bexp nm)
    then l_noisy ≠ l_nom else l_noisy = l_nom;
  noise_heap :
    if truthy (effective_noise_mode bexp nm)
    then (l_noisy ∉ dom h0) ∧
         h = <[l_noisy := map (noise_transform n_qubits
                                  (effective_noise_mode bexp nm)) nominal]> h0
    else h = h0
}.

End Vocabulary.

(** ** Vocabulary of the further properties *)

Section Reading.
Context `{C : Collaborators}.
Import Py Np.

(** The estimator the [method] argument selects at lines 120 to 123 and
    133 to 136: the comparison is Python's [==] on strings, and any
    other string selects none. *)
Definition estimator_of_method (method : string) : option estimator :=
  if method_is method "MLE" then Some MLE
  else if method_is method "BME" then Some BME
  else None.

(** The estimator of a track run. *)
Definition performed_with (e : event) : option estimator :=
  match e with
  | Call_perform m _ _ _ _ _ => Some m
  | _ => None
  end.

Definition is_savefig_call (e : event) : bool :=
  match e with Call_savefig _ => true | _ => false end.

(** Device tomography that returns more operator sets than it was
    given. *)
Definition tomography_adds_sets : Prop :=
  ∀ e n_qubits shots noisy states n_cores b d guess angles,
    (length noisy
     < length (fst (device_tomography e n_qubits shots noisy states n_cores b d
                      guess angles)))%nat.

(** The line the run prints when it creates the results directory. *)
Definition results_created : event :=
  Stdout (Text "Created results dictionary.").

(** The data of a curve fit have the given length, abscissae and
    ordinates alike. *)
Definition fit_lengths (n : nat) (e : event) : Prop :=
  match e with
  | Call_curve_fit xdata ydata => length xdata = n ∧ length ydata = n
  | _ => True
  end.

End Reading.

(** A laboratory whose device tomography returns one operator set more
    than it was given; everything else is as in [Lab]. *)

Module Lab_plus.
Import Py Np Lab.

Definition lab_plus : Collaborators := {|
  POVM := Z;
  Matrix := Z;
  QState := Z;
  Rho := Z;
  Angles := Z;
  Outcomes := list Z;
  ExpDict := unit;
  Env := nat;
  now_uuid e := (String (Ascii.ascii_of_nat (65 + e)) "", S e);
  time_time e := (inject_Z (Z.of_nat e), S e);
  get_cailibration_states n := ([0; 1; 2; 3], 7)%Z;
  generate_Pauli_POVM n := map Z.of_nat (seq 1 (3 ^ Z.to_nat n));
  generate_noisy_POVM povm mode := (povm + 100 * mode)%Z;
  depolarized_POVM povm := (povm + 1000)%Z;
  get_POVM povm := povm;
  POVM_distance a b := inject_Z (Z.abs (a - b));
  device_tomography e _ _ noisy _ _ _ _ _ _ := (noisy ++ [0%Z], S e);
  sample_outcomes e povms states _ _ _ _ := (Z.of_nat e :: povms, S e);
  estimate := lab_estimate;
  curve_fit := lab_curve_fit;
  power_law x a b := map (λ _, Finite a) x
|}.

Definition w0_plus : @world lab_plus := @World lab_plus 0%nat ∅ ∅ ∅.

End Lab_plus.

(** ** Facts about the aggregation *)

Section Aggregation.
Import Np.

Local Notation "a =q= b" := (Forall2 Qeq a b) (at level 70).

#[local] Instance Qlist_equiv : Equivalence (Forall2 Qeq).
Proof. apply _. Qed.

Lemma add_length a b : length (add a b) = Nat.min (length a) (length b).
Proof. apply length_zip_with. Qed.





Lemma colsum_length c a :
  Forall (λ r, length r = c) a → length (colsum c a) = c.
Proof.
  induction 1 as [|r a Hr _ IH]; simpl.
  - apply length_replicate.
  - rewrite add_length, IH, Hr. apply Nat.min_id.
Qed.









End Aggregation.

(** ** Running the monad *)

Section Verification.
Context `{C : Collaborators}.
Import Py Np.

Lemma bind_ok {A B} (m : M A) (k : A → M B) w a w' ev :
  m w = Run (Ok a) w' ev →
  bind m k w = Run (result (k a w')) (final (k a w')) (ev ++ emitted (k a w')).
Proof. intros H. unfold bind. by rewrite H. Qed.

Lemma bind_raise {A B} (m : M A) (k : A → M B) w e w' ev :
  m w = Run (Raise e) w' ev → bind m k w = Run (Raise e) w' ev.
Proof. intros H. unfold bind. by rewrite H. Qed.

Lemma bind_assoc {A B D} (m : M A) (k1 : A → M B) (k2 : B → M D) w :
  bind (bind m k1) k2 w = bind m (λ a, bind (k1 a) k2) w.
Proof.
  unfold bind. destruct (m w) as [[a|e] w1 ev1]; cbn; [|done].
  destruct (k1 a w1) as [[b|e] w2 ev2]; cbn; [|done].
  by rewrite app_assoc.
Qed.

Lemma os_mkdir_exists p w :
  p ∈ dirs w → os_mkdir p w = Run (Raise (FileExistsError p)) w [].
Proof. intros H. unfold os_mkdir. by rewrite decide_True. Qed.

Lemma os_mkdir_fresh p w :
  p ∉ dirs w → os_mkdir p w = Run (Ok tt) (with_dirs w ({[p]} ∪ dirs w)) [].
Proof. intros H. unfold os_mkdir. by rewrite decide_False. Qed.

Lemma os_makedirs_fresh p w :
  p ∉ dirs w → os_makedirs p w = Run (Ok tt) (with_dirs w ({[p]} ∪ dirs w)) [].
Proof. intros H. unfold os_makedirs. by rewrite decide_False. Qed.

Lemma comprehension_run {A B} (f : A → B) ev xs w :
  comprehension f ev xs w = Run (Ok (map f xs)) w (map ev xs).
Proof.
  induction xs as [|x xs IH]; [done|].
  cbn [comprehension map]. erewrite bind_ok by reflexivity.
  erewrite bind_ok by apply IH. cbn. by rewrite app_nil_r.
Qed.

(** The loop of lines 107 and 108 prints one line for each index both
    lists have, and fails at the first index the noisy list lacks. *)
Lemma for_in_distances rec noisy n : ∀ i w,
  (i + n = length rec)%nat →
  for_in (seq i n) (λ i,
    r <- index "reconstructed_POVM_list" rec i;;
    n <- index "noisy_POVM_list" noisy i;;
    py_print (FmtQ "Distance between reconstructed and noisy POVM: "
                (POVM_distance (get_POVM r) (get_POVM n)) ""))%py w
  = Run (if (n =? 0)%nat || (i + n <=? length noisy)%nat then Ok tt
         else Raise (IndexError "noisy_POVM_list"))
        w (zip_with distance_line (drop i rec) (drop i noisy)).
Proof.
  induction n as [|n IH]; intros i w Hi.
  - cbn. rewrite Nat.add_0_r in Hi. subst i. by rewrite drop_all.
  - cbn [seq for_in].
    destruct (lookup_lt_is_Some_2 rec i) as [r Hr]; [lia|].
    rewrite (drop_S _ _ _ Hr).
    destruct (noisy !! i) as [x|] eqn:Hx.
    + erewrite bind_ok; cycle 1.
      { unfold index. rewrite Hr, Hx. reflexivity. }
      rewrite IH by lia. rewrite (drop_S _ _ _ Hx).
      apply lookup_lt_Some in Hx.
      cbn [result final emitted app zip_with]. f_equal.
      destruct n; cbn [Nat.eqb orb].
      * rewrite Nat.add_1_r. by destruct (Nat.leb_spec (S i) (length noisy)); [|lia].
      * by replace (i + S (S n))%nat with (S i + S n)%nat by lia.
    + erewrite bind_raise; cycle 1.
      { unfold index. rewrite Hr, Hx. reflexivity. }
      apply lookup_ge_None_1 in Hx. rewrite (drop_ge noisy) by done.
      destruct (Nat.leb_spec (i + S n) (length noisy)); [lia|].
      done.
Qed.

Lemma print_distances_run rec noisy w :
  print_distances rec noisy w
  = Run (if (length rec <=? length noisy)%nat then Ok tt
         else Raise (IndexError "noisy_POVM_list"))
        w (zip_with distance_line rec noisy).
Proof.
  unfold print_distances. rewrite for_in_distances by done.
  cbn [Nat.add drop]. by destruct rec.
Qed.

(** *** Weakest preconditions *)

Lemma wp_intro {A} (m : M A) w (P : run A → Prop) :
  wp m w [] (λ o w' ev, P (Run o w' ev)) → P (m w).
Proof. unfold wp. cbn. by destruct (m w). Qed.

Lemma wp_bind {A B} (m : M A) (k : A → M B) w pre Q :
  wp m w pre (λ o w' ev,
    match o with
    | Ok a => wp (k a) w' ev Q
    | Raise e => Q (Raise e) w' ev
    end) →
  wp (bind m k) w pre Q.
Proof.
  unfold wp, bind. destruct (m w) as [[a|e] w' ev]; cbn; [|done].
  by rewrite app_assoc.
Qed.

Lemma wp_assoc {A B D} (m : M A) (k1 : A → M B) (k2 : B → M D) w pre Q :
  wp (bind m (λ a, bind (k1 a) k2)) w pre Q → wp (bind (bind m k1) k2) w pre Q.
Proof. unfold wp. by rewrite bind_assoc. Qed.

Lemma wp_run {A} (m : M A) w pre Q o w' ev :
  m w = Run o w' ev → Q o w' (pre ++ ev) → wp m w pre Q.
Proof. intros H HQ. unfold wp. by rewrite H. Qed.

Lemma wp_silent {A} (m : M A) w pre Q o w' :
  m w = Run o w' [] → Q o w' pre → wp m w pre Q.
Proof. intros H HQ. unfold wp. rewrite H. cbn. by rewrite app_nil_r. Qed.

(** A collaborator's answer is named, not unfolded. *)
Lemma wp_in_env {A} (f : Env → A * Env) w pre Q :
  (∀ r, r = f (env w) → Q (Ok (fst r)) (with_env w (snd r)) pre) →
  wp (in_env f) w pre Q.
Proof. intros H. eapply wp_silent; [reflexivity|]. by apply H. Qed.

(** All that matters of a new reference is that it is new. *)
Lemma wp_alloc v w pre Q :
  (∀ l, l ∉ dom (heap w) → Q (Ok l) (with_heap w (<[l:=v]> (heap w))) pre) →
  wp (alloc v) w pre Q.
Proof. intros H. eapply wp_silent; [reflexivity|]. apply H, is_fresh. Qed.

Lemma wp_deref l w pre Q v :
  default [] (heap w !! l) = v → Q (Ok v) w pre → wp (deref l) w pre Q.
Proof. intros <- H. by eapply wp_silent. Qed.

Lemma wp_np_save path obj w pre Q content :
  default [] (files w !! path) = content →
  Q (Ok tt) (with_files w (<[path := content ++ [obj]]> (files w))) pre →
  wp (np_save path obj) w pre Q.
Proof. intros <- H. by eapply wp_silent. Qed.

(** *** Two blocks whose branches join *)

Lemma wp_results_block {R} (k : M R) w pre Q :
  (∀ evs d, results_post w evs d → wp k (with_dirs w d) (pre ++ evs) Q) →
  wp ((if negb (bool_decide ("results" ∈ dirs w))
       then py_print (Text "Created results dictionary.");;
            os_makedirs "results"
       else ret tt);; k)%py w pre Q.
Proof.
  intros H. apply wp_bind. destruct (decide ("results" ∈ dirs w)) as [Hin|Hout].
  - rewrite bool_decide_eq_true_2 by done. cbn [negb].
    eapply wp_silent; [reflexivity|]. cbn beta iota.
    specialize (H [] (dirs w)). rewrite app_nil_r in H.
    replace (with_dirs w (dirs w)) with w in H by (by destruct w).
    apply H. by repeat split.
  - rewrite bool_decide_eq_false_2 by done. cbn [negb].
    apply wp_bind. eapply wp_run; [reflexivity|]. cbn beta iota.
    eapply wp_silent; [exact (os_makedirs_fresh _ _ Hout)|]. cbn beta iota.
    apply H. split; [by repeat constructor|]. split; [apply elem_of_union_l; by apply elem_of_singleton|].
    intros p Hp. rewrite elem_of_union, elem_of_singleton. tauto.
Qed.

Lemma filter_none (f : event → bool) l :
  Forall (λ e, f e = false) l → List.filter f l = [].
Proof. induction 1 as [|e l He _ IH]; [done|]. cbn. by rewrite He. Qed.

Lemma filter_all (f : event → bool) l :
  Forall (λ e, f e = true) l → List.filter f l = l.
Proof. induction 1 as [|e l He _ IH]; [done|]. cbn. by rewrite He, IH. Qed.

Lemma stdout_not_noise l :
  Forall (λ e, is_stdout e = true) l → Forall (λ e, is_noise_call e = false) l.
Proof. intros H. eapply Forall_impl; [exact H|]. by intros []. Qed.

Lemma fresh_ne (h : gmap loc (list POVM)) l l' v :
  l ∉ dom h → h !! l' = Some v → l ≠ l'.
Proof. intros Hl Hl' ->. apply Hl. by apply elem_of_dom. Qed.

Lemma noise_post_intro bexp nm n_qubits nominal l_nom h0 l_noisy h ev0 ev1 :
  let mode := effective_noise_mode bexp nm in
  h0 !! l_nom = Some nominal →
  Forall (λ e, is_stdout e = true) ev0 →
  (bexp = true → noise_warning ∈ ev0) →
  Forall (λ e, (is_stdout e || is_noise_call e) = true) ev1 →
  (truthy mode = false → Stdout (Text "No synthetic noise.") ∈ ev1) →
  List.filter is_noise_call ev1
  = (if truthy mode then map (noise_call n_qubits mode) nominal else []) →
  (if truthy mode
   then (l_noisy ∉ dom h0) ∧
        h = <[l_noisy := map (noise_transform n_qubits mode) nominal]> h0
   else l_noisy = l_nom ∧ h = h0) →
  noise_post bexp nm n_qubits nominal l_nom h0 l_noisy h (ev0 ++ ev1).
Proof.
  intros mode Hnom H0 Hwarn H1 Hsil Hf Hh. subst mode. split.
  - apply Forall_app; split; [|done].
    eapply Forall_impl; [exact H0|]. by intros ? ->.
  - intros Hb. apply elem_of_app. left. by apply Hwarn.
  - intros Hm. apply elem_of_app. right. by apply Hsil.
  - rewrite List.filter_app, (filter_none _ ev0) by by apply stdout_not_noise.
    exact Hf.
  - destruct (truthy _); destruct Hh as [Hl ->]; [|done].
    rewrite lookup_insert_ne; [done|]. by eapply fresh_ne.
  - destruct (truthy _); destruct Hh as [Hl ->].
    + by rewrite lookup_insert_eq.
    + by subst.
  - destruct (truthy _); destruct Hh as [Hl ->]; [|done]. by eapply fresh_ne.
  - destruct (truthy _); by destruct Hh as [Hl ->].
Qed.

Lemma wp_noise_block {R} (K : Z → loc → M R) bexp nm n_qubits nominal l_nom
    w pre Q :
  heap w !! l_nom = Some nominal →
  (∀ l_noisy h evs,
     noise_post bexp nm n_qubits nominal l_nom (heap w) l_noisy h evs →
     wp (K (effective_noise_mode bexp nm) l_noisy) (with_heap w h)
        (pre ++ evs) Q) →
  wp (noise_mode <-
        (if bexp
         then py_print (Text "Noise mode is disabled as experimental measurements are performed.");;
              ret 0
         else ret nm);;
      noisy_POVM_list <-
        (if truthy noise_mode then
           py_print (FmtZ "Synthetic noise mode " noise_mode ".");;
           if n_qubits =? 1 then
             povms <- deref l_nom;;
             l <- comprehension (λ povm, generate_noisy_POVM povm noise_mode)
                    (λ povm, Call_generate_noisy_POVM povm noise_mode) povms;;
             a <- alloc l;;
             py_print (FmtZ "Synthetic single qubit noise mode " noise_mode ".");;
             ret a
           else
             povms <- deref l_nom;;
             l <- comprehension depolarized_POVM Call_depolarized_POVM povms;;
             alloc l
         else
           py_print (Text "No synthetic noise.");;
           ret l_nom);;
      K noise_mode noisy_POVM_list)%py w pre Q.
Proof.
  intros Hnom H.
  assert (Hw : with_heap w (heap w) = w) by (by destruct w).
  set (mode := effective_noise_mode bexp nm).
  assert (Hsplit :
    ∀ ev0, Forall (λ e, is_stdout e = true) ev0 →
           (bexp = true → noise_warning ∈ ev0) →
      wp (noisy_POVM_list <-
            (if truthy mode then
               py_print (FmtZ "Synthetic noise mode " mode ".");;
               if n_qubits =? 1 then
                 povms <- deref l_nom;;
                 l <- comprehension
                        (λ povm, generate_noisy_POVM povm mode)
                        (λ povm, Call_generate_noisy_POVM povm mode)
                        povms;;
                 a <- alloc l;;
                 py_print (FmtZ "Synthetic single qubit noise mode " mode ".");;
                 ret a
               else
                 povms <- deref l_nom;;
                 l <- comprehension depolarized_POVM Call_depolarized_POVM povms;;
                 alloc l
             else
               py_print (Text "No synthetic noise.");;
               ret l_nom);;
          K mode noisy_POVM_list)%py w (pre ++ ev0) Q).
  { intros ev0 Hev0 Hwarn. apply wp_bind.
    destruct (truthy mode) eqn:Hmode.
    - apply wp_bind. eapply wp_run; [reflexivity|]. cbn beta iota.
      destruct (n_qubits =? 1) eqn:Hn.
      + apply wp_bind. eapply wp_deref; [by rewrite Hnom|]. cbn beta iota.
        apply wp_bind. eapply wp_run; [apply comprehension_run|]. cbn beta iota.
        apply wp_bind. apply wp_alloc. intros l Hl. cbn beta iota.
        apply wp_bind. eapply wp_run; [reflexivity|]. cbn beta iota.
        eapply wp_silent; [reflexivity|]. cbn beta iota.
        rewrite <- !app_assoc. apply H.
        apply noise_post_intro; [done|done|done| | | |].
        * repeat (apply Forall_app; split); try by repeat constructor.
          apply Forall_fmap, Forall_true. by intros p.
        * fold mode. by rewrite Hmode.
        * fold mode. rewrite Hmode.
          cbn [app List.filter is_noise_call].
          rewrite List.filter_app. cbn [List.filter is_noise_call]. rewrite app_nil_r.
          unfold noise_call. rewrite Hn. apply filter_all.
          apply Forall_fmap, Forall_true. by intros p.
        * fold mode. rewrite Hmode. split; [done|].
          unfold noise_transform. by rewrite Hn.
      + apply wp_bind. eapply wp_deref; [by rewrite Hnom|]. cbn beta iota.
        apply wp_bind. eapply wp_run; [apply comprehension_run|]. cbn beta iota.
        apply wp_alloc. intros l Hl.
        rewrite <- !app_assoc. apply H.
        apply noise_post_intro; [done|done|done| | | |].
        * repeat (apply Forall_app; split); try by repeat constructor.
          apply Forall_fmap, Forall_true. by intros p.
        * fold mode. by rewrite Hmode.
        * fold mode. rewrite Hmode.
          cbn [app List.filter is_noise_call].
          unfold noise_call. rewrite Hn. apply filter_all.
          apply Forall_fmap, Forall_true. by intros p.
        * fold mode. rewrite Hmode. split; [done|].
          unfold noise_transform. by rewrite Hn.
    - apply wp_bind. eapply wp_run; [reflexivity|]. cbn beta iota.
      eapply wp_silent; [reflexivity|].
      rewrite <- !app_assoc. rewrite <- Hw at 1. apply H.
      apply noise_post_intro; [done|done|done| | | |].
      * by repeat constructor.
      * intros _. by apply list_elem_of_singleton.
      * fold mode. by rewrite Hmode.
      * fold mode. by rewrite Hmode. }
  apply wp_bind. destruct bexp.
  - apply wp_bind. eapply wp_run; [reflexivity|]. cbn beta iota.
    eapply wp_silent; [reflexivity|]. cbn beta iota.
    apply (Hsplit [noise_warning]); [by repeat constructor|].
    intros _. by apply list_elem_of_singleton.
  - eapply wp_silent; [reflexivity|]. cbn beta iota.
    specialize (Hsplit []). rewrite app_nil_r in Hsplit.
    apply Hsplit; [constructor|done].
Qed.

(** *** Reading traces *)

Lemma filter_stdout (f : event → bool) l :
  (∀ x, f (Stdout x) = false) →
  Forall (λ e, is_stdout e = true) l → List.filter f l = [].
Proof.
  intros Hf H. apply filter_none. eapply Forall_impl; [exact H|].
  intros [] ?; by try apply Hf.
Qed.

Lemma filter_noise (f : event → bool) l :
  (∀ x, f (Stdout x) = false) →
  (∀ p m, f (Call_generate_noisy_POVM p m) = false) →
  (∀ p, f (Call_depolarized_POVM p) = false) →
  Forall (λ e, (is_stdout e || is_noise_call e) = true) l →
  List.filter f l = [].
Proof.
  intros H1 H2 H3 H. apply filter_none. eapply Forall_impl; [exact H|].
  intros [] ?; by try first [apply H1|apply H2|apply H3].
Qed.

Lemma distance_lines_stdout rec noisy :
  Forall (λ e, is_stdout e = true) (zip_with distance_line rec noisy).
Proof.
  revert noisy. induction rec as [|r rec IH]; intros [|n noisy]; cbn;
    constructor; auto.
Qed.

Lemma data_path_not_results s : "results/" +:+ s ≠ "results".
Proof. cbn. discriminate. Qed.

Lemma results_post_fresh w evs d s :
  results_post w evs d → "results/" +:+ s ∈ d ↔ "results/" +:+ s ∈ dirs w.
Proof. intros (_ & _ & H). apply H, data_path_not_results. Qed.

(** Symbolic execution: one statement at a time, splitting where the
    outcome depends on the input. *)
Ltac wp_cbn :=
  cbv beta iota zeta delta
    [with_env with_dirs with_files with_heap env dirs files heap];
  cbn [fst snd app negb andb from_option id
       QST_new QST_with_outcomes QST_with_results
       qst_POVM_list qst_true_state_list qst_n_shots_each qst_n_qubits
       qst_bool_exp_measurements qst_exp_dictionary qst_n_cores
       qst_noise_corrected_POVM_list qst_true_state_angles_list
       qst_outcomes qst_infidelity qst_rho_estm].

Ltac world_cbn t :=
  eval cbv beta iota delta
    [env dirs files heap with_env with_dirs with_files with_heap] in t.

Ltac lookup_simpl :=
  cbv beta iota delta
    [env dirs files heap with_env with_dirs with_files with_heap];
  repeat first
    [ rewrite lookup_insert_eq
    | rewrite lookup_insert_ne by assumption
    | match goal with
      | H : ?h !! ?l = Some _ |- context [?h !! ?l] => rewrite H
      end ];
  cbn [default from_option id app].

(** A new reference differs from every reference in use. *)
Ltac fresh_facts l :=
  repeat match goal with
  | Hl : l ∉ dom ?h, Hk : ?h !! ?l' = Some _ |- _ =>
      lazymatch goal with
      | _ : l ≠ l' |- _ => fail
      | _ => pose proof (fresh_ne h l l' _ Hl Hk)
      end
  end.

Ltac wp_alloc_step :=
  apply wp_alloc; wp_cbn;
  let l := fresh "l" in
  let Hl := fresh "Hl" in
  intros l Hl; fresh_facts l; wp_cbn.

Ltac wp_prim :=
  first [ eapply wp_silent; [reflexivity|]
        | eapply wp_run; [reflexivity|] ];
  wp_cbn.

Ltac method_cbn :=
  repeat match goal with
  | |- context [String.eqb ?a ?b] =>
      let v := eval vm_compute in (String.eqb a b) in
      lazymatch v with
      | true => change (String.eqb a b) with true
      | false => change (String.eqb a b) with false
      end
  end;
  rewrite ?andb_false_r, ?andb_true_r.

Ltac wp_head m w :=
  lazymatch m with
  | bind _ _ => apply wp_assoc
  | if negb (bool_decide ("results" ∈ _)) then _ else _ =>
      apply (wp_results_block _ w); wp_cbn;
      let Hresults := fresh "Hresults" in
      intros ? ? Hresults
  | if ?b then bind (py_print (Text "Noise mode is disabled as experimental measurements are performed.")) _ else _ =>
      eapply (wp_noise_block _ _ _ _ _ _ w); [lookup_simpl; reflexivity|];
      wp_cbn;
      let Hnoise := fresh "Hnoise" in
      intros ? ? ? Hnoise;
      pose proof (noise_nominal _ _ _ _ _ _ _ _ _ Hnoise);
      pose proof (noise_noisy _ _ _ _ _ _ _ _ _ Hnoise)
  | if String.eqb ?a ?b then _ else _ =>
      let H := fresh "Hmethod" in
      destruct (String.eqb_spec a b) as [H|H];
      [ subst a; method_cbn | ];
      rewrite ?andb_false_r, ?andb_true_r; wp_cbn
  | if ?b then _ else _ => destruct b eqn:?
  | os_mkdir ?p =>
      let H := fresh "Hdir" in
      let d := world_cbn (dirs w) in
      apply wp_bind;
      destruct (decide (p ∈ d)) as [H|H];
      [eapply wp_silent; [exact (os_mkdir_exists p w H)|]
      |eapply wp_silent; [exact (os_mkdir_fresh p w H)|]];
      wp_cbn
  | os_makedirs ?p =>
      apply wp_bind;
      eapply wp_silent; [exact (os_makedirs_fresh p w ltac:(assumption))|];
      wp_cbn
  | in_env _ =>
      apply wp_bind; apply wp_in_env; wp_cbn;
      let Henv := fresh "Henv" in
      intros ? Henv
  | alloc _ => apply wp_bind; wp_alloc_step
  | deref _ =>
      apply wp_bind; eapply wp_deref; [lookup_simpl; reflexivity|]; wp_cbn
  | np_save _ _ =>
      apply wp_bind; eapply wp_np_save; [lookup_simpl; reflexivity|]; wp_cbn
  | comprehension ?f ?ev ?xs =>
      apply wp_bind;
      eapply wp_run; [exact (comprehension_run f ev xs w)|]; wp_cbn
  | print_distances ?r ?n =>
      apply wp_bind;
      eapply wp_run; [exact (print_distances_run r n w)|];
      let Hlen := fresh "Hlen" in
      destruct (length r <=? length n)%nat eqn:Hlen; wp_cbn
  | index _ ?l _ =>
      let Hrows := fresh "Hrows" in
      apply wp_bind; unfold index; destruct l eqn:Hrows;
      cbn [lookup list_lookup]; wp_prim
  | call_curve_fit ?x ?y ?p => unfold call_curve_fit at 1; wp_cbn
  | match curve_fit ?x ?y ?p with _ => _ end =>
      let Hfit := fresh "Hfit" in
      apply wp_bind; destruct (curve_fit x y p) eqn:Hfit; wp_prim
  | QST_generate_data _ _ => unfold QST_generate_data at 1; wp_cbn
  | QST_perform _ _ _ => unfold QST_perform at 1; wp_cbn
  | QST_save_QST_settings _ _ _ => unfold QST_save_QST_settings at 1; wp_cbn
  | plt_savefig _ _ _ => unfold plt_savefig at 1; wp_cbn
  | _ => apply wp_bind; wp_prim
  end.

Ltac wp_step :=
  lazymatch goal with
  | |- wp (bind ?m _) ?w _ _ => wp_head m w
  | |- wp (if ?b then _ else _) _ _ _ => destruct b eqn:?
  | |- wp (alloc _) _ _ _ => wp_alloc_step
  | |- wp (np_save _ _) _ _ _ =>
      eapply wp_np_save; [lookup_simpl; reflexivity|]; wp_cbn
  | |- wp _ _ _ _ => wp_prim
  end.

Ltac wp_exec := repeat wp_step.

(** From a goal about a run to a goal about its outcome. *)
Ltac wp_start :=
  lazymatch goal with
  | |- context [emqst ?a ?b ?c ?d ?e ?f ?g ?h ?i ?j ?k ?w] =>
      pattern (emqst a b c d e f g h i j k w);
      apply wp_intro; unfold emqst, method_is; method_cbn;
      try (is_var w;
           let e := fresh "env0" in
           let d := fresh "dirs0" in
           let f := fresh "files0" in
           let h := fresh "heap0" in
           destruct w as [e d f h]);
      wp_cbn
  end.

(** Filtering a trace: the printed lines and the noise calls drop out
    of the stage filters. *)
Ltac trace_filter_with f :=
  rewrite ?(List.filter_app f);
  repeat match goal with
  | H : results_post _ ?evs _ |- context [List.filter f ?evs] =>
      rewrite (filter_stdout f evs (λ _, eq_refl) (proj1 H))
  | H : noise_post _ _ _ _ _ _ _ _ ?evs |- context [List.filter f ?evs] =>
      rewrite (filter_noise f evs (λ _, eq_refl) (λ _ _, eq_refl)
                 (λ _, eq_refl) (noise_events _ _ _ _ _ _ _ _ _ H))
  | |- context [List.filter f (zip_with distance_line ?r ?n)] =>
      rewrite (filter_stdout f _ (λ _, eq_refl) (distance_lines_stdout r n))
  end;
  cbn [List.filter app is_stage_call is_calibration_call is_track_call
       is_perform_call is_curve_fit_call is_noise_call is_stdout orb].

Ltac trace_filter :=
  repeat match goal with
  | |- context [List.filter ?f (_ ++ _)] => trace_filter_with f
  | |- context [List.filter ?f ?evs] => is_var evs; trace_filter_with f
  end.

(** The run directory exists although it was new: absurd. *)
Ltac dir_absurd :=
  lazymatch goal with
  | Hres : results_post _ _ ?d, Hdir : _ ∈ ?d, Henv : _ = now_uuid _
    |- data_path _ ∉ _ → _ =>
      let Hfresh := fresh in
      intros Hfresh; exfalso; apply Hfresh;
      unfold data_path; cbn [env dirs]; rewrite <- Henv;
      exact (proj1 (results_post_fresh _ _ _ _ Hres) Hdir)
  end.

(** Two files of a run are told apart by their names. *)
Ltac path_ne :=
  let Heq := fresh in
  intros Heq;
  first [ apply (inj (String.app _)) in Heq; discriminate Heq
        | cbn in Heq; discriminate Heq ].

Ltac file_lookup :=
  repeat first [ rewrite lookup_insert_eq
               | rewrite lookup_insert_ne by path_ne ].

(** An event of a printed or called segment is in the trace. *)
Ltac in_trace :=
  repeat (apply elem_of_app; first [ right; assumption | left ]).

(** Reading a key of a dictionary literal. *)
Ltac dict_lookup :=
  unfold list_to_map; cbn [foldr fst snd];
  repeat (rewrite lookup_insert_ne by discriminate);
  by rewrite lookup_insert_eq.

(** ** The claims *)

Lemma truthy_true z : z ≠ 0 → truthy z = true.
Proof. intros H. unfold truthy. by destruct (Z.eqb_spec z 0). Qed.


Lemma map_moves {A} (f : A → A) (l : list A) p :
  p ∈ l → f p ≠ p → map f l ≠ l.
Proof.
  induction 1 as [p l|p q l _ IH]; intros Hp Heq; cbn in Heq;
    injection Heq as Hq Hl; [contradiction|by apply IH].
Qed.

Lemma fold_left_add_short rs r :
  (length (fold_left add rs r) ≤ length r)%nat.
Proof.
  revert r. induction rs as [|r' rs IH]; intros r; cbn; [done|].
  etrans; [apply IH|]. unfold add. rewrite length_zip_with. lia.
Qed.

Lemma ensemble_average_short k rows n :
  Forall (λ row, (length row ≤ k)%nat) rows →
  (length (ensemble_average rows n) ≤ k)%nat.
Proof.
  intros H. unfold ensemble_average, true_divide. rewrite length_map.
  destruct H as [|r rs Hr _]; cbn; [lia|].
  etrans; [apply fold_left_add_short|done].
Qed.

Lemma slice_from_short {A} k (l : list A) :
  (length l ≤ k)%nat → slice_from k l = [].
Proof. intros H. unfold slice_from. by apply drop_ge. Qed.

Lemma arange_length n : length (arange n) = n.
Proof. unfold arange. by rewrite length_map, length_seq. Qed.

(** C4.  A call that supplies calibration states never binds
    [calibration_angles]: the run does not return, it reaches neither the
    calibration stage nor any later one, and unless the run directory
    already exists it ends at line 87 with an UnboundLocalError. *)
Theorem emqst_given_states_unbound_angles
    n_qubits n_QST_shots_each n_calibration_shots_each true_state_list
    calibration_states bool_exp_measurements exp_dictionary n_cores
    noise_mode true_state_angles_list method w :
  let r := emqst n_qubits n_QST_shots_each n_calibration_shots_each
             true_state_list (Some calibration_states) bool_exp_measurements
             exp_dictionary n_cores noise_mode true_state_angles_list method w
  in
  is_ok (result r) = false ∧
  List.filter is_stage_call (emitted r) = [] ∧
  (data_path w ∉ dirs w →
   result r = Raise (UnboundLocalError "calibration_angles")).
Proof.
  intros r. subst r. wp_start. wp_exec.
  - cbn [result emitted is_ok]. split; [done|]. split; [by trace_filter|].
    dir_absurd.
  - cbn [result emitted is_ok]. split; [done|]. split; [by trace_filter|].
    done.
Qed.


(** C6.  With the experimental-measurement flag set, whatever noise mode
    was asked for: no noise transform is called, calibration is given
    the nominal list itself as the noisy one, the run says so on
    standard output, and the noise mode it records is 0. *)
Theorem emqst_experimental_disables_noise
    n_qubits n_QST_shots_each n_calibration_shots_each true_state_list
    calibration_states exp_dictionary n_cores
    noise_mode true_state_angles_list method w :
  let r := emqst n_qubits n_QST_shots_each n_calibration_shots_each
             true_state_list calibration_states true
             exp_dictionary n_cores noise_mode true_state_angles_list method w
  in
  List.filter is_noise_call (emitted r) = [] ∧
  (List.filter is_calibration_call (emitted r) = [] ∨
   ∃ l, List.filter is_calibration_call (emitted r)
        = [Call_device_tomography l l]) ∧
  (data_path w ∉ dirs w →
   noise_warning ∈ emitted r ∧ Stdout (Text "No synthetic noise.") ∈ emitted r) ∧
  (is_ok (result r) = true →
   saved_setting (final r) (data_path w +:+ "/DT_settings.npy") "noise_mode"
   = Some (V_int 0)).
Proof.
  intros r. subst r. remember true as bexp eqn:Hbexp.
  wp_start. destruct calibration_states.
  all: wp_exec.
  all: subst bexp.
  all: cbn [result emitted final files is_ok].
  all: try (pose proof (noise_calls _ _ _ _ _ _ _ _ _ Hnoise) as Hcalls;
            pose proof (noise_alias _ _ _ _ _ _ _ _ _ Hnoise) as Halias;
            pose proof (noise_warned _ _ _ _ _ _ _ _ _ Hnoise eq_refl) as Hwarn;
            pose proof (noise_silent _ _ _ _ _ _ _ _ _ Hnoise eq_refl) as Hsil;
            cbn in Hcalls, Halias; subst l_noisy).
  all: split; [by trace_filter; rewrite ?Hcalls|].
  all: split; [trace_filter; by eauto|].
  all: split; [first [dir_absurd | intros _; split; in_trace]|].
  all: try done.
  all: intros _; unfold saved_setting, data_path; cbn [env files].
  all: rewrite <- Henv; file_lookup.
  all: dict_lookup.
Qed.



(** C9.  Whenever a track runs, the stages are: calibration, data
    generation under the noisy list, the corrected track under an
    override, and the uncorrected track with no override, run under the
    list the track object was constructed with.  That list is the
    nominal Pauli list; with a noise mode other than 0 in force the
    noisy list is another object, the nominal list transformed, and it
    differs from the nominal one as soon as the transform moves one of
    its operator sets. *)
Theorem emqst_uncorrected_track_uses_nominal
    n_qubits n_QST_shots_each n_calibration_shots_each true_state_list
    calibration_states bool_exp_measurements exp_dictionary n_cores
    noise_mode true_state_angles_list method w :
  let r := emqst n_qubits n_QST_shots_each n_calibration_shots_each
             true_state_list calibration_states bool_exp_measurements
             exp_dictionary n_cores noise_mode true_state_angles_list method w
  in
  let mode := effective_noise_mode bool_exp_measurements noise_mode in
  let nominal := generate_Pauli_POVM n_qubits in
  List.filter is_perform_call (emitted r) ≠ [] →
  ∃ l_nom l_noisy l_rec m d ci cr ui ur noisy,
    List.filter is_stage_call (emitted r)
    = [Call_device_tomography l_noisy l_nom;
       Call_generate_data (Some l_noisy) l_noisy d;
       Call_perform m (Some l_rec) l_rec (Some d) ci cr;
       Call_perform m None l_nom (Some d) ui ur] ∧
    heap (final r) !! l_nom = Some nominal ∧
    heap (final r) !! l_noisy = Some noisy ∧
    (mode = 0 → l_noisy = l_nom) ∧
    (mode ≠ 0 →
     l_noisy ≠ l_nom ∧
     noisy = map (noise_transform n_qubits mode) nominal ∧
     ∀ p, p ∈ nominal → noise_transform n_qubits mode p ≠ p →
          noisy ≠ nominal).
Proof.
  intros r mode nominal. subst r mode nominal.
  wp_start. destruct calibration_states.
  all: wp_exec.
  all: cbn [result emitted final heap]; trace_filter; try done; intros _.
  all: pose proof (noise_alias _ _ _ _ _ _ _ _ _ Hnoise) as Halias.
  all: do 10 eexists; split; [reflexivity|].
  all: split; [by lookup_simpl|]; split; [by lookup_simpl|].
  all: split;
    [ intros Hmode; by rewrite Hmode in Halias
    | intros Hmode; rewrite (truthy_true _ Hmode) in Halias |- *;
      split; [done|]; split; [done|]; intros p; apply map_moves ].
Qed.

(** C3.  With an empty ensemble, and estimators that yield one
    trajectory for each true state, the run does not return, and what it
    raises is never an EmptyEnsembleError: once the tracks have run it
    ends at line 142 with the IndexError of [uncorrected_infidelity[0]],
    before the means are taken and before anything is written to the
    results file. *)
Theorem emqst_empty_ensemble_index_error
    n_qubits n_QST_shots_each n_calibration_shots_each
    calibration_states bool_exp_measurements exp_dictionary n_cores
    noise_mode true_state_angles_list method w :
  one_trajectory_per_state →
  let r := emqst n_qubits n_QST_shots_each n_calibration_shots_each
             [] calibration_states bool_exp_measurements
             exp_dictionary n_cores noise_mode true_state_angles_list method w
  in
  is_ok (result r) = false ∧
  (∀ e, result r = Raise e → exn_class e ≠ "EmptyEnsembleError") ∧
  (List.filter is_perform_call (emitted r) ≠ [] →
   result r = Raise (IndexError "uncorrected_infidelity") ∧
   files (final r) !! (data_path w +:+ "/QST_results.npy")
   = files w !! (data_path w +:+ "/QST_results.npy")).
Proof.
  intros Hone r. subst r. wp_start. destruct calibration_states.
  all: wp_exec.
  all: try (exfalso; apply (f_equal length) in Hrows;
            rewrite Henv5, Hone in Hrows; discriminate Hrows).
  all: cbn [result emitted final files is_ok].
  all: split; [done|].
  all: split; [intros e He; injection He as <-; cbn; discriminate|].
  all: trace_filter; try done.
  all: intros _; split; [done|].
  all: unfold data_path; cbn [env]; rewrite <- Henv; by file_lookup.
Qed.

(** C7.  With the Bayesian estimator and fewer than ten cores the curve
    fit is called whatever the number of shots.  When a trajectory has
    no more than 1000 entries, the fit is called on empty data: the run
    returns exactly when [curve_fit] accepts that, and the trajectories
    and estimates are in the results file either way. *)
Theorem emqst_curve_fit_on_short_trajectories
    n_qubits n_QST_shots_each n_calibration_shots_each true_state_list
    bool_exp_measurements exp_dictionary n_cores
    noise_mode true_state_angles_list w :
  tomography_keeps_cardinality →
  one_trajectory_per_state →
  one_entry_per_shot →
  data_path w ∉ dirs w →
  true_state_list ≠ [] →
  (Z.to_nat n_QST_shots_each * length (generate_Pauli_POVM n_qubits)
   ≤ 1000)%nat →
  n_cores < 10 →
  let r := emqst n_qubits n_QST_shots_each n_calibration_shots_each
             true_state_list None bool_exp_measurements
             exp_dictionary n_cores noise_mode true_state_angles_list "BME" w
  in
  head (List.filter is_curve_fit_call (emitted r))
  = Some (Call_curve_fit [] []) ∧
  is_ok (result r) = is_ok (curve_fit [] [] (1, -(1#2))%Q) ∧
  ∃ ci ui cr ur,
    files (final r) !! (data_path w +:+ "/QST_results.npy")
    = Some [P_array ci; P_array ui; P_rho cr; P_rho ur].
Proof.
  intros Hcard Hone Hshot Hfresh Hne Hshort Hcores r. subst r.
  revert Hfresh. wp_start. wp_exec.
  all: try dir_absurd; intros _.
  (* the noisy list is as long as the nominal one, and so is the
     reconstructed one *)
  all: assert (Hnoisy :
         length (if truthy (effective_noise_mode bool_exp_measurements noise_mode)
                 then map (noise_transform n_qubits
                             (effective_noise_mode bool_exp_measurements noise_mode))
                        (generate_Pauli_POVM n_qubits)
                 else generate_Pauli_POVM n_qubits)
         = length (generate_Pauli_POVM n_qubits))
       by (destruct (truthy _); by rewrite ?length_map).
  all: assert (Hrec : length r1.1 = length (generate_Pauli_POVM n_qubits))
       by (rewrite Henv1, Hcard; exact Hnoisy).
  all: try (exfalso; rewrite Hrec, Hnoisy, Nat.leb_refl in Hlen;
            discriminate Hlen).
  all: try (exfalso; apply (f_equal length) in Hrows;
            rewrite Henv5, Hone in Hrows; by destruct true_state_list).
  all: try (exfalso; apply Z.ltb_ge in Heqb; lia).
  (* every slice from index 1000 on is empty *)
  all: assert (Hrow : (length l1 ≤ 1000)%nat)
       by (pose proof (Hshot BME r4.2 (generate_Pauli_POVM n_qubits)
                         (Some r3.1) true_state_list n_QST_shots_each
                         n_qubits n_cores) as Hs;
           rewrite <- Henv5, Hrows in Hs;
           apply Forall_cons in Hs as [-> _]; exact Hshort).
  all: assert (Hx : slice_from 1000 (arange (length l1)) = [])
       by (apply slice_from_short; by rewrite arange_length).
  all: assert (Hyc :
         slice_from 1000 (ensemble_average r4.1.1
                            (Z.of_nat (length true_state_list))) = [])
       by (apply slice_from_short, ensemble_average_short;
           pose proof (Hshot BME r3.2 r1.1 (Some r3.1) true_state_list
                         n_QST_shots_each n_qubits n_cores) as Hs;
           rewrite <- Henv4 in Hs;
           eapply Forall_impl; [exact Hs|];
           intros row ->; by rewrite Hrec).
  all: assert (Hyu :
         slice_from 1000 (ensemble_average (l1 :: l2)
                            (Z.of_nat (length true_state_list))) = [])
       by (apply slice_from_short, ensemble_average_short;
           pose proof (Hshot BME r4.2 (generate_Pauli_POVM n_qubits)
                         (Some r3.1) true_state_list n_QST_shots_each
                         n_qubits n_cores) as Hs;
           rewrite <- Henv5, Hrows in Hs;
           eapply Forall_impl; [exact Hs|];
           intros row ->; exact Hshort).
  all: rewrite ?Hx, ?Hyc, ?Hyu in *.
  all: cbn [result emitted final files is_ok]; trace_filter.
  all: split; [reflexivity|].
  all: try (exfalso; congruence).
  all: split; [by rewrite Hfit|].
  all: do 4 eexists; unfold data_path; cbn [env]; rewrite <- Henv;
       file_lookup; reflexivity.
Qed.

(** C10.  A run that returns hands back three values in this order: the
    infidelity trajectories of the corrected track, those of the
    uncorrected track, and the final estimates of the corrected track.
    The final estimates of the uncorrected track are the fourth array of
    the results file and are not returned. *)
Theorem emqst_returns_corrected_uncorrected_estimates
    n_qubits n_QST_shots_each n_calibration_shots_each true_state_list
    calibration_states bool_exp_measurements exp_dictionary n_cores
    noise_mode true_state_angles_list method w v :
  let r := emqst n_qubits n_QST_shots_each n_calibration_shots_each
             true_state_list calibration_states bool_exp_measurements
             exp_dictionary n_cores noise_mode true_state_angles_list method w
  in
  result r = Ok v →
  ∃ m l_rec l_nom d ci cr ui ur,
    List.filter is_perform_call (emitted r)
    = [Call_perform m (Some l_rec) l_rec d ci cr;
       Call_perform m None l_nom d ui ur] ∧
    v = (ci, ui, cr) ∧
    files (final r) !! (data_path w +:+ "/QST_results.npy")
    = Some [P_array ci; P_array ui; P_rho cr; P_rho ur].
Proof.
  intros r. subst r. wp_start. destruct calibration_states.
  all: wp_exec.
  all: cbn [result emitted final files]; intros Hv; try discriminate Hv.
  all: injection Hv as <-; trace_filter.
  all: do 8 eexists; split; [reflexivity|]; split; [by rewrite <- ?Hrows|].
  all: unfold data_path; cbn [env]; rewrite <- Henv; file_lookup.
  all: by rewrite <- ?Hrows.
Qed.

(** ** Further properties of the run *)

(** X1.  When the directory of the run already exists, [os.mkdir] at
    line 51 fails: the run ends with FileExistsError on that path,
    having printed nothing but, when it had to create it, the line
    about the results directory; no file is written and no object is
    made.  The results directory exists afterwards all the same. *)
Theorem emqst_existing_run_directory
    n_qubits n_QST_shots_each n_calibration_shots_each true_state_list
    calibration_states bool_exp_measurements exp_dictionary n_cores
    noise_mode true_state_angles_list method w :
  data_path w ∈ dirs w →
  let r := emqst n_qubits n_QST_shots_each n_calibration_shots_each
             true_state_list calibration_states bool_exp_measurements
             exp_dictionary n_cores noise_mode true_state_angles_list method w
  in
  result r = Raise (FileExistsError (data_path w)) ∧
  emitted r = (if bool_decide ("results" ∈ dirs w) then []
               else [results_created]) ∧
  files (final r) = files w ∧
  heap (final r) = heap w ∧
  dirs (final r) = {["results"]} ∪ dirs w.
Proof.
  intros Hex r. subst r. wp_start.
  unfold data_path in *. cbn [env dirs files heap] in Hex.
  wp_step. apply wp_bind.
  destruct (decide ("results" ∈ dirs0)) as [Hin|Hout].
  - rewrite (bool_decide_eq_true_2 _ Hin). cbn [negb]. wp_prim.
    wp_step. wp_step.
    + cbn [result emitted final files heap dirs env]. rewrite Henv.
      repeat split. symmetry. by apply subseteq_union_1_L, singleton_subseteq_l.
    + exfalso. apply Hdir. by rewrite Henv.
  - rewrite (bool_decide_eq_false_2 _ Hout). cbn [negb].
    wp_step. eapply wp_silent; [apply os_makedirs_fresh; exact Hout|]. wp_cbn.
    wp_step. wp_step.
    + cbn [result emitted final files heap dirs env]. by rewrite Henv.
    + exfalso. apply Hdir. rewrite Henv. by apply elem_of_union_r.
Qed.





(** A file that is neither in the run directory nor [latest_run.png]. *)
Ltac outside_run :=
  let Heq := fresh in
  intros Heq;
  match goal with
  | H : _ ≠ "latest_run.png" |- _ => apply H; symmetry; exact Heq
  | H : ∀ s, _ ≠ _ +:+ s |- _ => eapply H; symmetry; exact Heq
  end.

(** X3.  A file that is not in the directory of the run and is not
    [latest_run.png] is left as it was, however the run ends. *)
Theorem emqst_writes_in_run_directory_only
    n_qubits n_QST_shots_each n_calibration_shots_each true_state_list
    calibration_states bool_exp_measurements exp_dictionary n_cores
    noise_mode true_state_angles_list method w path :
  (∀ s, path ≠ data_path w +:+ s) →
  path ≠ "latest_run.png" →
  let r := emqst n_qubits n_QST_shots_each n_calibration_shots_each
             true_state_list calibration_states bool_exp_measurements
             exp_dictionary n_cores noise_mode true_state_angles_list method w
  in
  files (final r) !! path = files w !! path.
Proof.
  intros Hout Hlatest r. subst r. wp_start.
  unfold data_path in Hout. cbn [env] in Hout.
  destruct calibration_states.
  all: wp_exec.
  all: cbn [result emitted final files].
  all: try rewrite <- Henv in Hout.
  all: by repeat (rewrite lookup_insert_ne by outside_run).
Qed.

(** X4.  Line 154: unless there are fewer than ten cores and the
    method is ["BME"], no curve is fitted, no figure is saved and
    [latest_run.png] is left as it was. *)
Theorem emqst_plots_only_for_bme
    n_qubits n_QST_shots_each n_calibration_shots_each true_state_list
    calibration_states bool_exp_measurements exp_dictionary n_cores
    noise_mode true_state_angles_list method w :
  ¬ (n_cores < 10 ∧ method = "BME") →
  let r := emqst n_qubits n_QST_shots_each n_calibration_shots_each
             true_state_list calibration_states bool_exp_measurements
             exp_dictionary n_cores noise_mode true_state_angles_list method w
  in
  List.filter is_curve_fit_call (emitted r) = [] ∧
  List.filter is_savefig_call (emitted r) = [] ∧
  files (final r) !! "latest_run.png" = files w !! "latest_run.png".
Proof.
  intros Hno r. subst r. wp_start. destruct calibration_states.
  all: wp_exec.
  all: try (exfalso; apply Hno; split; [by apply Z.ltb_lt|reflexivity]).
  all: cbn [result emitted final files]; trace_filter;
       cbn [List.filter app is_savefig_call].
  all: split; [done|]; split; [done|].
  all: by repeat (rewrite lookup_insert_ne by path_ne).
Qed.

(** X5.  Lines 120 to 123 and 133 to 136: every track run is made with
    the estimator the [method] string names, ["MLE"] or ["BME"] to the
    letter; with any other string no track is run at all. *)
Theorem emqst_method_selects_estimator
    n_qubits n_QST_shots_each n_calibration_shots_each true_state_list
    calibration_states bool_exp_measurements exp_dictionary n_cores
    noise_mode true_state_angles_list method w :
  let r := emqst n_qubits n_QST_shots_each n_calibration_shots_each
             true_state_list calibration_states bool_exp_measurements
             exp_dictionary n_cores noise_mode true_state_angles_list method w
  in
  Forall (λ e, performed_with e = estimator_of_method method)
    (List.filter is_perform_call (emitted r)) ∧
  (estimator_of_method method = None →
   List.filter is_perform_call (emitted r) = []).
Proof.
  intros r. subst r. wp_start. destruct calibration_states.
  all: wp_exec.
  all: cbn [result emitted]; trace_filter.
  all: split; [|first [done | intros Hnone; vm_compute in Hnone; discriminate Hnone]].
  all: repeat constructor.
Qed.

(** X6.  Lines 77 to 79: on one qubit a non-zero noise mode is handed
    to [generate_noisy_POVM], once for each nominal operator set and in
    their order; the noisy list is a new object that holds the results,
    the nominal list is left as it was, and calibration gets the two. *)
Theorem emqst_single_qubit_noise
    n_qubits n_QST_shots_each n_calibration_shots_each true_state_list
    exp_dictionary n_cores noise_mode true_state_angles_list method w :
  n_qubits = 1 → noise_mode ≠ 0 → data_path w ∉ dirs w →
  let r := emqst n_qubits n_QST_shots_each n_calibration_shots_each
             true_state_list None false
             exp_dictionary n_cores noise_mode true_state_angles_list method w
  in
  let nominal := generate_Pauli_POVM n_qubits in
  List.filter is_noise_call (emitted r)
  = map (λ povm, Call_generate_noisy_POVM povm noise_mode) nominal ∧
  ∃ l_noisy l_nom,
    List.filter is_calibration_call (emitted r)
    = [Call_device_tomography l_noisy l_nom] ∧
    l_noisy ≠ l_nom ∧
    heap (final r) !! l_noisy
    = Some (map (λ povm, generate_noisy_POVM povm noise_mode) nominal) ∧
    heap (final r) !! l_nom = Some nominal.
Proof.
  intros Hn Hmode Hfresh r nominal. subst r nominal.
  remember false as bexp eqn:Hbexp.
  revert Hfresh. wp_start. wp_exec.
  all: subst bexp; cbn [result emitted final heap]; try dir_absurd; intros _.
  all: pose proof (noise_calls _ _ _ _ _ _ _ _ _ Hnoise) as Hcalls;
       pose proof (noise_alias _ _ _ _ _ _ _ _ _ Hnoise) as Halias;
       cbn [effective_noise_mode] in *;
       rewrite (truthy_true _ Hmode) in *;
       unfold noise_call, noise_transform in *;
       rewrite (proj2 (Z.eqb_eq n_qubits 1) Hn) in *.
  all: split; [by trace_filter; rewrite Hcalls, ?app_nil_r|].
  all: do 2 eexists; split; [by trace_filter|].
  all: split; [exact Halias|].
  all: split; by lookup_simpl.
Qed.

(** X7.  The loop of lines 107 and 108 runs over the indices of the
    reconstructed list.  It prints one line for each index the two
    lists share and changes nothing; it ends well when the
    reconstructed list is no longer than the noisy one, and otherwise
    fails with IndexError on the noisy list after a line for each of
    its operator sets. *)
Theorem print_distances_bounds (reconstructed noisy : list POVM) w :
  let r := print_distances reconstructed noisy w in
  emitted r = zip_with distance_line reconstructed noisy ∧
  final r = w ∧
  ((length reconstructed ≤ length noisy)%nat → result r = Ok tt) ∧
  ((length noisy < length reconstructed)%nat →
   result r = Raise (IndexError "noisy_POVM_list") ∧
   length (emitted r) = length noisy).
Proof.
  intros r. subst r. rewrite print_distances_run. cbn [result final emitted].
  split; [done|]. split; [done|]. split.
  - intros H. by destruct (Nat.leb_spec (length reconstructed) (length noisy)); [|lia].
  - intros H. destruct (Nat.leb_spec (length reconstructed) (length noisy)); [lia|].
    split; [done|]. rewrite length_zip_with. lia.
Qed.

(** X8.  When device tomography returns more operator sets than it
    was given, the run ends at line 108 with IndexError: the settings
    of the calibration are saved by then, no outcome data is generated,
    no track is run and the settings of the track are not written. *)
Theorem emqst_longer_reconstruction_index_error
    n_qubits n_QST_shots_each n_calibration_shots_each true_state_list
    bool_exp_measurements exp_dictionary n_cores
    noise_mode true_state_angles_list method w :
  tomography_adds_sets →
  data_path w ∉ dirs w →
  let r := emqst n_qubits n_QST_shots_each n_calibration_shots_each
             true_state_list None bool_exp_measurements
             exp_dictionary n_cores noise_mode true_state_angles_list method w
  in
  result r = Raise (IndexError "noisy_POVM_list") ∧
  List.filter is_track_call (emitted r) = [] ∧
  saved_setting (final r) (data_path w +:+ "/DT_settings.npy") "noise_mode"
  = Some (V_int (effective_noise_mode bool_exp_measurements noise_mode)) ∧
  files (final r) !! (data_path w +:+ "/QST_settings.npy")
  = files w !! (data_path w +:+ "/QST_settings.npy").
Proof.
  intros Hadd Hfresh r. subst r. revert Hfresh. wp_start. wp_exec.
  all: try dir_absurd; intros _.
  all: try (exfalso; apply Nat.leb_le, Nat.le_ngt in Hlen; apply Hlen;
            rewrite Henv1; apply Hadd).
  all: cbn [result emitted final files]; trace_filter.
  all: split; [done|]; split; [done|].
  all: unfold saved_setting, data_path; cbn [env files]; rewrite <- Henv.
  all: split; [file_lookup; dict_lookup | by file_lookup].
Qed.


(** X10.  A run with the Bayesian estimator and fewer than ten cores
    that returns has fitted two curves, the mean of the corrected and
    the mean of the uncorrected trajectories, both from step 1000 on and
    against the steps of the first uncorrected trajectory; and it has
    saved one figure twice, in its directory and as [latest_run.png],
    replacing what that file held: four curves from step 10 on. *)
Theorem emqst_bme_run_fits_and_plots
    n_qubits n_QST_shots_each n_calibration_shots_each true_state_list
    calibration_states bool_exp_measurements exp_dictionary n_cores
    noise_mode true_state_angles_list w :
  n_cores < 10 →
  let r := emqst n_qubits n_QST_shots_each n_calibration_shots_each
             true_state_list calibration_states bool_exp_measurements
             exp_dictionary n_cores noise_mode true_state_angles_list "BME" w
  in
  is_ok (result r) = true →
  ∃ ci ui cr curves,
    let n_averages := Z.of_nat (length true_state_list) in
    let sample_step := arange (length (hd [] ui)) in
    let figure := P_figure curves (100, length sample_step) in
    result r = Ok (ci, ui, cr) ∧
    List.filter is_curve_fit_call (emitted r)
    = [Call_curve_fit (slice_from 1000 sample_step)
         (slice_from 1000 (ensemble_average ci n_averages));
       Call_curve_fit (slice_from 1000 sample_step)
         (slice_from 1000 (ensemble_average ui n_averages))] ∧
    List.filter is_savefig_call (emitted r)
    = [Call_savefig (data_path w +:+ "/Averaged_infidelities.png");
       Call_savefig "latest_run.png"] ∧
    files (final r) !! (data_path w +:+ "/Averaged_infidelities.png")
    = Some [figure] ∧
    files (final r) !! "latest_run.png" = Some [figure] ∧
    map curve_x curves = replicate 4 (slice_from 10 sample_step) ∧
    map curve_fmt curves = ["r"; "b"; "r--"; "b--"].
Proof.
  intros Hcores r. subst r. wp_start. destruct calibration_states.
  all: wp_exec.
  all: cbn [result emitted final files is_ok]; intros Hv; try discriminate Hv.
  all: try (exfalso; apply Z.ltb_ge in Heqb; lia).
  all: trace_filter; cbn [List.filter app is_savefig_call].
  all: unfold data_path; cbn [env]; rewrite <- Henv.
  all: do 4 eexists; cbv zeta.
  all: split; [reflexivity|].
  all: split; [reflexivity|].
  all: split; [reflexivity|].
  all: split; [file_lookup; reflexivity|].
  all: split; [file_lookup; reflexivity|].
  all: split; reflexivity.
Qed.

Lemma fold_left_add_length k rs r :
  length r = k → Forall (λ row, length row = k) rs →
  length (fold_left add rs r) = k.
Proof.
  intros Hr Hrs. revert r Hr.
  induction Hrs as [|r' rs Hr' _ IH]; intros r Hr; cbn; [done|].
  apply IH. rewrite add_length, Hr, Hr'. apply Nat.min_id.
Qed.

Lemma ensemble_average_length k rows n :
  rows ≠ [] → Forall (λ row, length row = k) rows →
  length (ensemble_average rows n) = k.
Proof.
  intros Hne H. unfold ensemble_average, true_divide. rewrite length_map.
  destruct H as [|r rs Hr Hrs]; [done|]. cbn. by apply fold_left_add_length.
Qed.

Lemma fit_lengths_intro k (rows : list (list Q)) (l : list Q) n :
  length l = k → rows ≠ [] → Forall (λ row, length row = k) rows →
  fit_lengths (k - 1000)
    (Call_curve_fit (slice_from 1000 (arange (length l)))
       (slice_from 1000 (ensemble_average rows n))).
Proof.
  intros Hl Hne Hrows. unfold fit_lengths, slice_from.
  rewrite !length_drop, arange_length, (ensemble_average_length k) by done.
  by rewrite Hl.
Qed.

(** X11.  When device tomography returns as many operator sets as it
    was given and the estimators yield one trajectory for each state,
    with one entry for each shot, the abscissae and the ordinates of
    every curve fit have one length: the number of entries of a
    trajectory less 1000, or none when there are no more than 1000. *)
Theorem emqst_fit_data_lengths
    n_qubits n_QST_shots_each n_calibration_shots_each true_state_list
    bool_exp_measurements exp_dictionary n_cores
    noise_mode true_state_angles_list method w :
  tomography_keeps_cardinality →
  one_trajectory_per_state →
  one_entry_per_shot →
  let r := emqst n_qubits n_QST_shots_each n_calibration_shots_each
             true_state_list None bool_exp_measurements
             exp_dictionary n_cores noise_mode true_state_angles_list method w
  in
  let entries :=
    (Z.to_nat n_QST_shots_each * length (generate_Pauli_POVM n_qubits))%nat in
  Forall (fit_lengths (entries - 1000))
    (List.filter is_curve_fit_call (emitted r)).
Proof.
  intros Hcard Hone Hshot r entries. subst r entries.
  wp_start. wp_exec.
  all: cbn [result emitted]; trace_filter.
  all: try by constructor.
  (* the reconstructed list is as long as the nominal one *)
  all: assert (Hnoisy :
         length (if truthy (effective_noise_mode bool_exp_measurements noise_mode)
                 then map (noise_transform n_qubits
                             (effective_noise_mode bool_exp_measurements noise_mode))
                        (generate_Pauli_POVM n_qubits)
                 else generate_Pauli_POVM n_qubits)
         = length (generate_Pauli_POVM n_qubits))
       by (destruct (truthy _); by rewrite ?length_map).
  all: assert (Hrec : length r1.1 = length (generate_Pauli_POVM n_qubits))
       by (rewrite Henv1, Hcard; exact Hnoisy).
  (* so the trajectories of both tracks have one length *)
  all: assert (Hu : Forall (λ row, length row
                      = (Z.to_nat n_QST_shots_each
                         * length (generate_Pauli_POVM n_qubits))%nat)
                      (l1 :: l2))
       by (rewrite <- Hrows, Henv5; apply Hshot).
  all: assert (Hc : Forall (λ row, length row
                      = (Z.to_nat n_QST_shots_each
                         * length (generate_Pauli_POVM n_qubits))%nat)
                      r4.1.1)
       by (rewrite <- Hrec, Henv4; apply Hshot).
  all: assert (Hcne : r4.1.1 ≠ [])
       by (intros Hnil; apply (f_equal length) in Hnil, Hrows;
           rewrite Henv4, Hone in Hnil; rewrite Henv5, Hone in Hrows;
           rewrite Hnil in Hrows; discriminate Hrows).
  all: pose proof (Forall_inv Hu) as Hl1.
  all: repeat (constructor; [by apply fit_lengths_intro|]).
  all: constructor.
Qed.






End Verification.

(** ** Runs in the laboratory *)

Section LabRuns.
Import Py Np Lab.

Lemma lab_tomography_keeps_cardinality :
  tomography_keeps_cardinality (C := lab).
Proof. by intros e n s noisy cs c b d g a. Qed.

Lemma lab_one_trajectory_per_state : one_trajectory_per_state (C := lab).
Proof. intros m e povms data states s q c. cbn. apply length_map. Qed.

Lemma lab_one_entry_per_shot : one_entry_per_shot (C := lab).
Proof.
  intros m e povms data states s q c. cbn.
  apply Forall_fmap, Forall_true. intros x. cbn. apply length_replicate.
Qed.

Lemma w0_fresh : data_path w0 ∉ dirs w0.
Proof. apply not_elem_of_empty. Qed.

(** One qubit, two true states, no noise, maximum likelihood: the run
    returns, and the two tracks agree. *)
Example emqst_lab_no_noise :
  result (emqst 1 2 10 [5; 6] None false tt 1 0 None "MLE" w0)
  = Ok ([replicate 6 1%Q; replicate 6 1%Q],
        [replicate 6 1%Q; replicate 6 1%Q],
        [6; 7]).
Proof. vm_compute. reflexivity. Qed.

(** The same with noise mode 3: the corrected track sees the shifted
    operator sets, the uncorrected one the nominal ones. *)
Example emqst_lab_noise :
  result (emqst 1 2 10 [5; 6] None false tt 1 3 None "MLE" w0)
  = Ok ([replicate 6 301%Q; replicate 6 301%Q],
        [replicate 6 1%Q; replicate 6 1%Q],
        [306; 307]).
Proof. vm_compute. reflexivity. Qed.



(** C3, counterexample: an empty ensemble ends in an IndexError, not in
    an EmptyEnsembleError. *)
Lemma emqst_empty_ensemble_raises_index_error :
  result (emqst 1 2 10 [] None false tt 1 0 None "MLE" w0)
  = Raise (IndexError "uncorrected_infidelity").
Proof. vm_compute. reflexivity. Qed.

Lemma emqst_empty_ensemble_index_error_witness :
  let r := emqst 1 2 10 [] None false tt 1 0 None "MLE" w0 in
  is_ok (result r) = false ∧
  (∀ e, result r = Raise e → exn_class e ≠ "EmptyEnsembleError") ∧
  (List.filter is_perform_call (emitted r) ≠ [] →
   result r = Raise (IndexError "uncorrected_infidelity") ∧
   files (final r) !! (data_path w0 +:+ "/QST_results.npy")
   = files w0 !! (data_path w0 +:+ "/QST_results.npy")).
Proof.
  apply (emqst_empty_ensemble_index_error (C := lab)).
  exact lab_one_trajectory_per_state.
Defined.



(** C7, counterexample: six shots, Bayesian estimator, one core.  The
    fit is not skipped: it is called on empty data, and since it refuses
    them the run fails. *)
Lemma emqst_short_run_attempts_curve_fit :
  let r := emqst 1 2 10 [5; 6] None false tt 1 0 None "BME" w0 in
  List.filter is_curve_fit_call (emitted r) = [Call_curve_fit [] []] ∧
  result r = Raise (Exn "ValueError" "`ydata` must not be empty!").
Proof. intros r. apply conj; vm_compute; reflexivity. Qed.

Lemma emqst_curve_fit_on_short_trajectories_witness :
  let r := emqst 1 2 10 [5; 6] None false tt 1 0 None "BME" w0 in
  head (List.filter is_curve_fit_call (emitted r))
  = Some (Call_curve_fit [] []) ∧
  is_ok (result r) = is_ok (curve_fit [] [] (1, -(1#2))%Q) ∧
  ∃ ci ui cr ur,
    files (final r) !! (data_path w0 +:+ "/QST_results.npy")
    = Some [P_array ci; P_array ui; P_rho cr; P_rho ur].
Proof.
  apply (emqst_curve_fit_on_short_trajectories (C := lab)).
  - exact lab_tomography_keeps_cardinality.
  - exact lab_one_trajectory_per_state.
  - exact lab_one_entry_per_shot.
  - exact w0_fresh.
  - discriminate.
  - vm_compute. lia.
  - lia.
Defined.


Lemma emqst_uncorrected_track_uses_nominal_witness :
  let r := emqst 1 2 10 [5; 6] None false tt 1 3 None "MLE" w0 in
  ∃ l_nom l_noisy l_rec m d ci cr ui ur noisy,
    List.filter is_stage_call (emitted r)
    = [Call_device_tomography l_noisy l_nom;
       Call_generate_data (Some l_noisy) l_noisy d;
       Call_perform m (Some l_rec) l_rec (Some d) ci cr;
       Call_perform m None l_nom (Some d) ui ur] ∧
    heap (final r) !! l_nom = Some (generate_Pauli_POVM 1) ∧
    heap (final r) !! l_noisy = Some noisy ∧
    (effective_noise_mode false 3 = 0 → l_noisy = l_nom) ∧
    (effective_noise_mode false 3 ≠ 0 →
     l_noisy ≠ l_nom ∧
     noisy = map (noise_transform 1 (effective_noise_mode false 3))
               (generate_Pauli_POVM 1) ∧
     ∀ p, p ∈ generate_Pauli_POVM 1 →
          noise_transform 1 (effective_noise_mode false 3) p ≠ p →
          noisy ≠ generate_Pauli_POVM 1).
Proof.
  apply (emqst_uncorrected_track_uses_nominal (C := lab)).
  vm_compute. discriminate.
Defined.

Lemma emqst_returns_corrected_uncorrected_estimates_witness :
  let r := emqst 1 2 10 [5; 6] None false tt 1 3 None "MLE" w0 in
  ∃ v, result r = Ok v ∧
  ∃ m l_rec l_nom d ci cr ui ur,
    List.filter is_perform_call (emitted r)
    = [Call_perform m (Some l_rec) l_rec d ci cr;
       Call_perform m None l_nom d ui ur] ∧
    v = (ci, ui, cr) ∧
    files (final r) !! (data_path w0 +:+ "/QST_results.npy")
    = Some [P_array ci; P_array ui; P_rho cr; P_rho ur].
Proof.
  intros r. eexists. split; [exact emqst_lab_noise|].
  apply (emqst_returns_corrected_uncorrected_estimates (C := lab)).
  exact emqst_lab_noise.
Defined.

Lemma lab_plus_tomography_adds_sets :
  tomography_adds_sets (C := Lab_plus.lab_plus).
Proof.
  intros e n s noisy cs c b d g a. cbn. rewrite length_app. cbn. lia.
Qed.

Lemma emqst_existing_run_directory_witness :
  let w := @World lab 0%nat {["results/A"]} ∅ ∅ in
  let r := emqst 1 2 10 [5; 6] None false tt 1 0 None "MLE" w in
  result r = Raise (FileExistsError (data_path w)) ∧
  emitted r = (if bool_decide ("results" ∈ dirs w) then []
               else [results_created]) ∧
  files (final r) = files w ∧
  heap (final r) = heap w ∧
  dirs (final r) = {["results"]} ∪ dirs w.
Proof.
  apply (emqst_existing_run_directory (C := lab)).
  by apply elem_of_singleton.
Defined.

Lemma emqst_writes_in_run_directory_only_witness :
  let w := @World lab 0%nat ∅ {["notes.txt" := [P_array [[1%Q]]]]} ∅ in
  let r := emqst 1 2 10 [5; 6] None false tt 1 0 None "MLE" w in
  files (final r) !! "notes.txt" = files w !! "notes.txt".
Proof.
  apply (emqst_writes_in_run_directory_only (C := lab)).
  - intros s. cbn. discriminate.
  - discriminate.
Defined.

Lemma emqst_plots_only_for_bme_witness :
  let r := emqst 1 2 10 [5; 6] None false tt 1 0 None "MLE" w0 in
  List.filter is_curve_fit_call (emitted r) = [] ∧
  List.filter is_savefig_call (emitted r) = [] ∧
  files (final r) !! "latest_run.png" = files w0 !! "latest_run.png".
Proof.
  apply (emqst_plots_only_for_bme (C := lab)).
  intros [_ H]. discriminate H.
Defined.

Lemma emqst_single_qubit_noise_witness :
  let r := emqst 1 2 10 [5; 6] None false tt 1 3 None "MLE" w0 in
  let nominal := generate_Pauli_POVM 1 in
  List.filter is_noise_call (emitted r)
  = map (λ povm, Call_generate_noisy_POVM povm 3) nominal ∧
  ∃ l_noisy l_nom,
    List.filter is_calibration_call (emitted r)
    = [Call_device_tomography l_noisy l_nom] ∧
    l_noisy ≠ l_nom ∧
    heap (final r) !! l_noisy
    = Some (map (λ povm, generate_noisy_POVM povm 3) nominal) ∧
    heap (final r) !! l_nom = Some nominal.
Proof.
  apply (emqst_single_qubit_noise (C := lab));
    [reflexivity | discriminate | exact w0_fresh].
Defined.

Lemma emqst_longer_reconstruction_index_error_witness :
  let r := emqst (C := Lab_plus.lab_plus) 1 2 10 [5; 6] None false tt 1 0 None
             "MLE" Lab_plus.w0_plus in
  result r = Raise (IndexError "noisy_POVM_list") ∧
  List.filter is_track_call (emitted r) = [] ∧
  saved_setting (final r) (data_path Lab_plus.w0_plus +:+ "/DT_settings.npy")
    "noise_mode"
  = Some (V_int (effective_noise_mode false 0)) ∧
  files (final r) !! (data_path Lab_plus.w0_plus +:+ "/QST_settings.npy")
  = files Lab_plus.w0_plus
      !! (data_path Lab_plus.w0_plus +:+ "/QST_settings.npy").
Proof.
  apply (emqst_longer_reconstruction_index_error (C := Lab_plus.lab_plus)).
  - exact lab_plus_tomography_adds_sets.
  - apply not_elem_of_empty.
Defined.


Lemma emqst_bme_run_fits_and_plots_witness :
  let r := emqst 1 400 10 [5; 6] None false tt 1 0 None "BME" w0 in
  ∃ ci ui cr curves,
    let n_averages := Z.of_nat (length [5; 6]) in
    let sample_step := arange (length (hd [] ui)) in
    let figure := P_figure curves (100, length sample_step) in
    result r = Ok (ci, ui, cr) ∧
    List.filter is_curve_fit_call (emitted r)
    = [Call_curve_fit (slice_from 1000 sample_step)
         (slice_from 1000 (ensemble_average ci n_averages));
       Call_curve_fit (slice_from 1000 sample_step)
         (slice_from 1000 (ensemble_average ui n_averages))] ∧
    List.filter is_savefig_call (emitted r)
    = [Call_savefig (data_path w0 +:+ "/Averaged_infidelities.png");
       Call_savefig "latest_run.png"] ∧
    files (final r) !! (data_path w0 +:+ "/Averaged_infidelities.png")
    = Some [figure] ∧
    files (final r) !! "latest_run.png" = Some [figure] ∧
    map curve_x curves = replicate 4 (slice_from 10 sample_step) ∧
    map curve_fmt curves = ["r"; "b"; "r--"; "b--"].
Proof.
  apply (emqst_bme_run_fits_and_plots (C := lab)); [lia|].
  vm_compute. reflexivity.
Defined.

Lemma emqst_fit_data_lengths_witness :
  let r := emqst 1 400 10 [5; 6] None false tt 1 0 None "BME" w0 in
  let entries := (Z.to_nat 400 * length (generate_Pauli_POVM 1))%nat in
  Forall (fit_lengths (entries - 1000))
    (List.filter is_curve_fit_call (emitted r)).
Proof.
  apply (emqst_fit_data_lengths (C := lab)).
  - exact lab_tomography_keeps_cardinality.
  - exact lab_one_trajectory_per_state.
  - exact lab_one_entry_per_shot.
Defined.


End LabRuns.
